(** * RockExport: the rule-based rock identifier of [identify-rock/index.ts]

    A shallow embedding of the edge function
    [supabase/functions/identify-rock/index.ts]: the characteristic
    extractor [parseCharacteristics], the ordered decision list
    [classifyRock] and the enrichment stage [enhanceRockData] with its
    static reference tables.

    JavaScript strings are modelled as [string]s of ASCII code units: on
    these [toLowerCase] lowers the letters A-Z only, the class [\s] is the
    six ASCII white-space characters and [.] excludes line feed and
    carriage return.  Object literals used as tables are read as finite
    maps from their own keys, in declaration order.  The network is an
    explicit input: the outcome of the one [fetch] the enrichment makes. *)

From Stdlib Require Import String Ascii List ZArith Bool Arith Lia.
Import ListNotations.

Open Scope list_scope.
Open Scope string_scope.

(* ================================================================== *)
(** ** JavaScript string primitives *)

Module JsString.

(** Truthiness of a string: every string but the empty one. *)
Definition truthy (s : string) : bool :=
  match s with
  | EmptyString => false
  | String _ _ => true
  end.

(** [a || b] on strings. *)
Definition or_else (a b : string) : string :=
  if truthy a then a else b.

Definition lower_char (c : ascii) : ascii :=
  let n := nat_of_ascii c in
  if (65 <=? n)%nat && (n <=? 90)%nat then ascii_of_nat (n + 32) else c.

(** [String.prototype.toLowerCase]. *)
Fixpoint toLowerCase (s : string) : string :=
  match s with
  | EmptyString => EmptyString
  | String c s' => String (lower_char c) (toLowerCase s')
  end.

(** The character class [\s]: tab, line feed, vertical tab, form feed,
    carriage return and space. *)
Definition is_space (c : ascii) : bool :=
  let n := nat_of_ascii c in
  ((9 <=? n)%nat && (n <=? 13)%nat) || (n =? 32)%nat.

(** Line terminators, which [.] does not match. *)
Definition is_line_terminator (c : ascii) : bool :=
  let n := nat_of_ascii c in
  (n =? 10)%nat || (n =? 13)%nat.

(** [s.split(/\s+/)] on a non-empty [s]: [tok] is the piece being read,
    [in_sep] tells that the previous character was white space, so that a
    run of white space separates once.  White space at either end leaves
    an empty piece there, as in JavaScript. *)
Fixpoint split_from (s tok : string) (in_sep : bool) : list string :=
  match s with
  | EmptyString => [tok]
  | String c s' =>
      if is_space c then
        if in_sep then split_from s' tok true
        else tok :: split_from s' EmptyString true
      else split_from s' (tok ++ String c EmptyString) false
  end.

Definition split_whitespace (s : string) : list string :=
  split_from s EmptyString false.

(** [Array.prototype.join(sep)]. *)
Fixpoint join (sep : string) (l : list string) : string :=
  match l with
  | [] => EmptyString
  | x :: rest =>
      match rest with
      | [] => x
      | _ :: _ => x ++ sep ++ join sep rest
      end
  end.

End JsString.

(* ================================================================== *)
(** ** The regular expressions of the source

    Only the truth value of [text.match(re)] is ever used, so a regular
    expression is its language: literal runs, [.*], concatenation and
    alternation (a group [(a|b)] is an alternation in a concatenation). *)

Module Regex.
Import JsString.

Inductive regex : Type :=
| Lit (s : string)
| AnyStar
| Seq (r1 r2 : regex)
| Alt (r1 r2 : regex).

(** [strip p s] is what follows [p] in [s] when [s] starts with [p]. *)
Fixpoint strip (p s : string) : option string :=
  match p with
  | EmptyString => Some s
  | String a p' =>
      match s with
      | EmptyString => None
      | String b s' => if Ascii.eqb a b then strip p' s' else None
      end
  end.

(** [.*] followed by the continuation [k]: the longest run first, then
    shorter ones (backtracking). *)
Fixpoint any_star (k : string -> bool) (s : string) : bool :=
  match s with
  | EmptyString => k s
  | String c s' => (negb (is_line_terminator c) && any_star k s') || k s
  end.

(** Backtracking match of [r] at the start of [s], the rest of the
    input handed to [k]. *)
Fixpoint match_at (r : regex) (s : string) (k : string -> bool) : bool :=
  match r with
  | Lit p => match strip p s with Some rest => k rest | None => false end
  | AnyStar => any_star k s
  | Seq r1 r2 => match_at r1 s (fun rest => match_at r2 rest k)
  | Alt r1 r2 => match_at r1 s k || match_at r2 s k
  end.

(** An unanchored search: the match may start at any position. *)
Fixpoint search (r : regex) (s : string) : bool :=
  match_at r s (fun _ => true)
  || match s with
     | EmptyString => false
     | String _ s' => search r s'
     end.

(** [s.match(r)] is not [null]. *)
Definition matches (s : string) (r : regex) : bool := search r s.

End Regex.

Import JsString Regex.

Coercion Lit : string >-> regex.
Notation "r1 <|> r2" := (Alt r1 r2) (at level 51, left associativity).
Notation "r1 +++ r2" := (Seq r1 r2) (at level 41, right associativity).
Notation "s =~ r" := (matches s r) (at level 60, no associativity).

(* ================================================================== *)
(** ** The characteristic extractor *)

Record ImageAnalysis : Type := {
  colors : list string;
  ia_texture : string;
  patterns : list string
}.

Record Characteristics : Type := {
  texture : string;
  color : string;
  hardness : string;
  luster : string;
  crystalSize : string;
  keywords : list string;
  dominantColors : option (list string)
}.

Inductive dimension : Type :=
  Texture | Color | Hardness | Luster | CrystalSize.

Definition dimension_eqb (a b : dimension) : bool :=
  match a, b with
  | Texture, Texture | Color, Color | Hardness, Hardness
  | Luster, Luster | CrystalSize, CrystalSize => true
  | _, _ => false
  end.

Definition get (d : dimension) (c : Characteristics) : string :=
  match d with
  | Texture => texture c
  | Color => color c
  | Hardness => hardness c
  | Luster => luster c
  | CrystalSize => crystalSize c
  end.

(** [characteristics.<d> = v]. *)
Definition assign (d : dimension) (v : string) (c : Characteristics)
  : Characteristics :=
  match d with
  | Texture =>
      {| texture := v; color := color c; hardness := hardness c;
         luster := luster c; crystalSize := crystalSize c;
         keywords := keywords c; dominantColors := dominantColors c |}
  | Color =>
      {| texture := texture c; color := v; hardness := hardness c;
         luster := luster c; crystalSize := crystalSize c;
         keywords := keywords c; dominantColors := dominantColors c |}
  | Hardness =>
      {| texture := texture c; color := color c; hardness := v;
         luster := luster c; crystalSize := crystalSize c;
         keywords := keywords c; dominantColors := dominantColors c |}
  | Luster =>
      {| texture := texture c; color := color c; hardness := hardness c;
         luster := v; crystalSize := crystalSize c;
         keywords := keywords c; dominantColors := dominantColors c |}
  | CrystalSize =>
      {| texture := texture c; color := color c; hardness := hardness c;
         luster := luster c; crystalSize := v;
         keywords := keywords c; dominantColors := dominantColors c |}
  end.

Definition set_keywords (ks : list string) (c : Characteristics)
  : Characteristics :=
  {| texture := texture c; color := color c; hardness := hardness c;
     luster := luster c; crystalSize := crystalSize c;
     keywords := ks; dominantColors := dominantColors c |}.

Definition set_dominantColors (cs : list string) (c : Characteristics)
  : Characteristics :=
  {| texture := texture c; color := color c; hardness := hardness c;
     luster := luster c; crystalSize := crystalSize c;
     keywords := keywords c; dominantColors := Some cs |}.

(** One line [if (desc.match(pattern)) characteristics.dim = label]. *)
Record rule : Type := {
  dim : dimension;
  pattern : regex;
  label : string
}.

Notation "'IF' r 'THEN' d ':=' l" :=
  {| dim := d; pattern := r; label := l |}
  (at level 10, r at level 60, d at level 0, l at level 0).

(** Lines 77-110, in the order of the source. *)
Definition extraction_rules : list rule :=
  [ (* Texture analysis *)
    IF "coarse" <|> "rough" <|> "bumpy" <|> "granular" <|> "grainy"
      THEN Texture := "coarse";
    IF "fine" <|> "smooth" <|> "silky" <|> "powdery"
      THEN Texture := "fine";
    IF "glassy" <|> "glass" <|> "shiny" <|> "reflective"
      THEN Texture := "glassy";
    IF "porous" <|> "holes" <|> "bubbles" <|> "foam" <|> "vesicular" <|> "pumice"
      THEN Texture := "vesicular";
    IF "layered" <|> "layers" <|> "banded" <|> "striped" <|> "sediment"
      THEN Texture := "layered";
    IF "foliated" <|> "flaky" <|> "scaly" <|> "sheet"
      THEN Texture := "foliated";
    IF "crystalline" <|> "crystal" <|> "sparkl"
      THEN Texture := "crystalline";
    (* Color analysis *)
    IF "dark" <|> "black" <|> "charcoal" <|> "deep"
      THEN Color := "dark";
    IF "light" <|> "white" <|> "pale" <|> "cream" <|> "beige"
      THEN Color := "light";
    IF "red" <|> "pink" <|> "reddish" <|> "rust" <|> "brick"
      THEN Color := "red";
    IF "green" <|> "olive" <|> "emerald"
      THEN Color := "green";
    IF "gray" <|> "grey" <|> "silver"
      THEN Color := "gray";
    IF "brown" <|> "tan" <|> "beige" <|> "chocolate"
      THEN Color := "brown";
    IF "yellow" <|> "golden" <|> "amber"
      THEN Color := "yellow";
    IF "blue" <|> "azure"
      THEN Color := "blue";
    (* Hardness indicators *)
    IF "hard" <|> "difficult" +++ AnyStar +++ ("scratch" <|> "break")
         <|> "tough" <|> "solid"
      THEN Hardness := "hard";
    IF "soft" <|> "easy" +++ AnyStar +++ ("scratch" <|> "break")
         <|> "crumbl" <|> "chalk"
      THEN Hardness := "soft";
    IF "medium" <|> "moderate"
      THEN Hardness := "medium";
    (* Luster *)
    IF "shiny" <|> "metallic" <|> "mirror" <|> "reflective"
      THEN Luster := "metallic";
    IF "dull" <|> "earthy" <|> "matte" <|> "chalky"
      THEN Luster := "dull";
    IF "glassy" <|> "vitreous" <|> "glass"
      THEN Luster := "vitreous";
    IF "pearly" <|> "silk"
      THEN Luster := "pearly";
    (* Crystal size *)
    IF "large" +++ AnyStar +++ ("crystal" <|> "grain") <|> "coarse"
      THEN CrystalSize := "large";
    IF "small" +++ AnyStar +++ ("crystal" <|> "grain") <|> "fine"
      THEN CrystalSize := "small";
    IF "no" +++ AnyStar +++ "crystal" <|> "glass"
      THEN CrystalSize := "none" ].

Definition apply_rule (desc : string) (c : Characteristics) (r : rule)
  : Characteristics :=
  if desc =~ pattern r then assign (dim r) (label r) c else c.

Definition initial_characteristics : Characteristics :=
  {| texture := "unknown"; color := "unknown"; hardness := "unknown";
     luster := "unknown"; crystalSize := "unknown";
     keywords := []; dominantColors := None |}.

Definition parseCharacteristics
    (description : option string) (imageAnalysis : option ImageAnalysis)
  : Characteristics :=
  let characteristics := initial_characteristics in
  let characteristics :=
    match description with
    | Some d =>
        if truthy d then
          let desc := toLowerCase d in
          let characteristics :=
            set_keywords (split_whitespace desc) characteristics in
          fold_left (apply_rule desc) extraction_rules characteristics
        else characteristics
    | None => characteristics
    end in
  match imageAnalysis with
  | Some ia => set_dominantColors (colors ia) characteristics
  | None => characteristics
  end.

(* ================================================================== *)
(** ** The classifier *)

Record RockData : Type := {
  name : string;
  type : string;
  confidence : Z;
  formation : string;
  subtype : string;
  textureType : string
}.

Definition createRockData
    (name type : string) (confidence : Z)
    (formation subtype textureType : string) : RockData :=
  {| name := name; type := type; confidence := confidence;
     formation := formation; subtype := subtype;
     textureType := textureType |}.

(** Statements that may [return]: [Some r] is [return r], [None] falls
    through to the next statement. *)
Definition or_continue {A : Type} (s : option A) (k : option A) : option A :=
  match s with
  | Some r => Some r
  | None => k
  end.

Definition when {A : Type} (b : bool) (body : option A) : option A :=
  if b then body else None.

Notation "s ;; k" := (or_continue s k) (at level 100, right associativity).
Notation "'return_' r" := (Some r) (at level 10, r at level 9, only parsing).
Notation "a === b" := (String.eqb a b) (at level 70, no associativity).

(** [const keywordString = (characteristics.keywords || []).join(' ')]:
    an array, also the empty one, is truthy. *)
Definition keywordString (c : Characteristics) : string :=
  join " " (keywords c).

(** Lines 129-156: direct rock name mentions. *)
Definition direct_mention (c : Characteristics) : option RockData :=
  let keywordString := keywordString c in
  when (keywordString =~ "granite")
    (return_ (createRockData "Granite" "igneous" 88 "Formed from slow cooling of felsic magma deep within the Earth's crust" "plutonic" "phaneritic")) ;;
  when (keywordString =~ "basalt")
    (return_ (createRockData "Basalt" "igneous" 85 "Formed from rapid cooling of mafic lava flows on the Earth's surface" "volcanic" "aphanitic")) ;;
  when (keywordString =~ "limestone" <|> "lime")
    (return_ (createRockData "Limestone" "sedimentary" 82 "Formed from accumulation of marine organisms and chemical precipitation in warm, shallow seas" "chemical" "crystalline")) ;;
  when (keywordString =~ "sandstone" <|> "sand")
    (return_ (createRockData "Sandstone" "sedimentary" 80 "Formed from cementation of sand-sized mineral particles, primarily quartz" "clastic" "medium-grained")) ;;
  when (keywordString =~ "marble")
    (return_ (createRockData "Marble" "metamorphic" 85 "Formed from metamorphism of limestone or dolomite under heat and pressure" "non-foliated" "crystalline")) ;;
  when (keywordString =~ "slate")
    (return_ (createRockData "Slate" "metamorphic" 83 "Formed from low-grade metamorphism of shale or mudstone" "foliated" "fine-grained")) ;;
  when (keywordString =~ "quartzite" <|> "quartz")
    (return_ (createRockData "Quartzite" "metamorphic" 81 "Formed from metamorphism of sandstone under high pressure and temperature" "non-foliated" "granoblastic")) ;;
  when (keywordString =~ "obsidian")
    (return_ (createRockData "Obsidian" "igneous" 90 "Formed from rapid cooling of volcanic glass, preventing crystal formation" "volcanic" "glassy")) ;;
  when (keywordString =~ "pumice")
    (return_ (createRockData "Pumice" "igneous" 87 "Formed from gas-filled volcanic eruptions that create a frothy, lightweight rock" "volcanic" "vesicular")).

(** Lines 158-217: characteristic-based classification. *)
Definition characteristic_based (c : Characteristics) : option RockData :=
  let keywordString := keywordString c in
  (* Igneous rocks - texture-based *)
  when (texture c === "glassy")
    (return_ (createRockData "Obsidian" "igneous" 85 "Formed from rapid cooling of volcanic glass, preventing crystal formation" "volcanic" "glassy")) ;;
  when ((texture c === "vesicular") || (texture c === "porous"))
    (if color c === "light" then
       return_ (createRockData "Pumice" "igneous" 80 "Formed from gas-filled volcanic eruptions that create a frothy, lightweight rock" "volcanic" "vesicular")
     else
       return_ (createRockData "Scoria" "igneous" 75 "Formed from basaltic or andesitic magma during Strombolian eruptions" "volcanic" "vesicular")) ;;
  when ((texture c === "coarse") || (crystalSize c === "large"))
    (if (color c === "light") || (color c === "gray") then
       return_ (createRockData "Granite" "igneous" 82 "Formed from slow cooling of felsic magma deep within the Earth's crust" "plutonic" "phaneritic")
     else if color c === "dark" then
       return_ (createRockData "Gabbro" "igneous" 78 "Formed from slow cooling of mafic magma deep within the Earth's crust" "plutonic" "phaneritic")
     else None) ;;
  when ((texture c === "fine") && ((color c === "dark") || (color c === "black")))
    (return_ (createRockData "Basalt" "igneous" 78 "Formed from rapid cooling of mafic lava flows on the Earth's surface" "volcanic" "aphanitic")) ;;
  (* Sedimentary rocks *)
  when ((texture c === "layered") || (keywordString =~ "layer" <|> "bed" <|> "strat"))
    (if (hardness c === "soft") || (keywordString =~ "clay" <|> "mud") then
       return_ (createRockData "Shale" "sedimentary" 75 "Formed from compaction of clay and silt particles in quiet water environments" "clastic" "fine-grained")
     else
       return_ (createRockData "Sandstone" "sedimentary" 72 "Formed from cementation of sand-sized mineral particles, primarily quartz" "clastic" "medium-grained")) ;;
  when ((hardness c === "soft") && ((color c === "light") || (color c === "white")))
    (return_ (createRockData "Limestone" "sedimentary" 75 "Formed from accumulation of marine organisms and chemical precipitation in warm, shallow seas" "chemical" "crystalline")) ;;
  when ((keywordString =~ "sand" <|> "grain") || (texture c === "coarse"))
    (return_ (createRockData "Sandstone" "sedimentary" 72 "Formed from cementation of sand-sized mineral particles, primarily quartz" "clastic" "medium-grained")) ;;
  (* Metamorphic rocks *)
  when ((texture c === "foliated") || (keywordString =~ "flaky" <|> "sheet" <|> "split"))
    (if hardness c === "soft" then
       return_ (createRockData "Slate" "metamorphic" 70 "Formed from low-grade metamorphism of shale or mudstone" "foliated" "fine-grained")
     else
       return_ (createRockData "Schist" "metamorphic" 68 "Formed from medium-grade metamorphism of shale or other fine-grained rocks" "foliated" "schistose")) ;;
  when ((texture c === "crystalline") || (luster c === "vitreous"))
    (if (color c === "light") || (color c === "white") then
       return_ (createRockData "Marble" "metamorphic" 76 "Formed from metamorphism of limestone or dolomite under heat and pressure" "non-foliated" "crystalline")
     else
       return_ (createRockData "Quartzite" "metamorphic" 74 "Formed from metamorphism of sandstone under high pressure and temperature" "non-foliated" "granoblastic")).

(** Lines 219-230: default fallbacks based on broad characteristics. *)
Definition broad_fallback (c : Characteristics) : option RockData :=
  when ((color c === "dark") || (color c === "black"))
    (return_ (createRockData "Basalt" "igneous" 65 "Formed from rapid cooling of mafic lava flows on the Earth's surface" "volcanic" "aphanitic")) ;;
  when ((color c === "light") || (color c === "gray"))
    (return_ (createRockData "Granite" "igneous" 65 "Formed from slow cooling of felsic magma deep within the Earth's crust" "plutonic" "phaneritic")) ;;
  when (hardness c === "soft")
    (return_ (createRockData "Limestone" "sedimentary" 60 "Formed from accumulation of marine organisms and chemical precipitation in warm, shallow seas" "chemical" "crystalline")).

(** Lines 232-234: final fallback - granite is most common. *)
Definition final_fallback : RockData :=
  createRockData "Granite" "igneous" 55 "Common igneous rock formed from cooling magma - identification needs more specific details" "plutonic" "phaneritic".

Definition classifyRock (characteristics : Characteristics) : RockData :=
  match
    direct_mention characteristics ;;
    characteristic_based characteristics ;;
    broad_fallback characteristics
  with
  | Some identification => identification
  | None => final_fallback
  end.

Definition identifyRock
    (description : option string) (imageAnalysis : option ImageAnalysis)
  : RockData :=
  let characteristics := parseCharacteristics description imageAnalysis in
  let identification := classifyRock characteristics in
  identification.

(* ================================================================== *)
(** ** The enrichment stage *)

(** What an [await]ed call or a block of a [try] comes to: a value, or an
    exception. *)
Inductive attempt (A : Type) : Type :=
| Done (a : A)
| Threw.
Arguments Done {A} a.
Arguments Threw {A}.

Definition bind {A B : Type} (m : attempt A) (f : A -> attempt B) : attempt B :=
  match m with
  | Done a => f a
  | Threw => Threw
  end.

Notation "x <- m ; k" := (bind m (fun x => k))
  (at level 200, m at level 100, k at level 200, right associativity).

(** [try { body } catch (error) { handler }]. *)
Definition try_catch {A : Type} (body : attempt A) (handler : A) : A :=
  match body with
  | Done a => a
  | Threw => handler
  end.

(** [a || b] where [a] is an array: an array is an object, and every
    object is truthy, the empty array as well. *)
Definition array_truthy {A : Type} (a : list A) : bool := true.

Definition array_or {A : Type} (a b : list A) : list A :=
  if array_truthy a then a else b.

(** [table[key] || fallback] on an object literal whose values are arrays
    or objects: a missing key reads [undefined], which is falsy. *)
Definition lookup {A : Type} (table : list (string * A)) (key : string)
  : option A :=
  match find (fun entry => fst entry === key) table with
  | Some entry => Some (snd entry)
  | None => None
  end.

Definition lookup_or {A : Type} (table : list (string * A)) (key : string)
    (fallback : A) : A :=
  match lookup table key with
  | Some v => v
  | None => fallback
  end.

(** The summary object of the Wikipedia REST API, as far as it is read:
    [data.extract] and [data.thumbnail?.source], each possibly
    [undefined]. *)
Record WikiSummary : Type := {
  extract : option string;
  thumbnail_source : option string
}.

(** The response of [fetch]: its [ok] flag and what [json()] comes to. *)
Record Response : Type := {
  ok : bool;
  json : attempt WikiSummary
}.

Inductive image_field : Type :=
| image_absent
| image_undefined
| image_null
| image_src (url : string).

Record WikipediaData : Type := {
  wiki_funFacts : list string;
  wiki_image : image_field
}.

Record LocationData : Type := {
  loc_locations : list string
}.

Record Classification : Type := {
  group : string;
  family : option string;
  series : option string
}.

Record EnrichedRock : Type := {
  basicData : RockData;
  locations : list string;
  composition : list string;
  uses : list string;
  classification : Classification;
  funFacts : list string;
  image : image_field
}.

(** Lines 278-296.  [net] is what [await fetch(...)] comes to. *)
Definition fetchWikipediaData (rockName : string) (net : attempt Response)
  : WikipediaData :=
  let tried : attempt (option WikipediaData) :=
    searchResponse <- net ;
    if ok searchResponse then
      data <- json searchResponse ;
      Done (Some
        {| wiki_funFacts :=
             [ match extract data with
               | Some text =>
                   or_else text (rockName ++ " is a type of rock with unique geological properties.")
               | None => rockName ++ " is a type of rock with unique geological properties."
               end ];
           wiki_image :=
             match thumbnail_source data with
             | Some url => image_src url
             | None => image_undefined
             end |})
    else Done None in
  match try_catch tried None with
  | Some result => result
  | None => {| wiki_funFacts := []; wiki_image := image_null |}
  end.

(** Lines 298-302. *)
Definition fetchLocationData (rockName : string) : LocationData :=
  {| loc_locations := [] |}.

(** Lines 304-312. *)
Definition locationMap : list (string * list string) :=
  [ ("igneous", ["Volcanic regions"; "Mountain ranges"; "Oceanic islands"; "Continental margins"]);
    ("sedimentary", ["River valleys"; "Ocean floors"; "Desert basins"; "Coastal plains"]);
    ("metamorphic", ["Mountain cores"; "Continental shields"; "Collision zones"; "Deep crustal regions"]) ].

Definition getDefaultLocations (rockType : string) : list string :=
  lookup_or locationMap rockType ["Worldwide distribution"].

(** Lines 314-329.  The subscript 3 of the calcite formula is outside ASCII
    and written [3] here. *)
Definition compositionMap : list (string * list string) :=
  [ ("Granite", ["Quartz (25-35%)"; "Feldspar (50-60%)"; "Mica (5-15%)"; "Hornblende"]);
    ("Basalt", ["Plagioclase feldspar"; "Pyroxene"; "Olivine"; "Magnetite"]);
    ("Limestone", ["Calcite (CaCO3)"; "Aragonite"; "Dolomite"; "Fossil fragments"]);
    ("Sandstone", ["Quartz (dominant)"; "Feldspar"; "Rock fragments"; "Clay minerals"]);
    ("Shale", ["Clay minerals"; "Quartz"; "Feldspar"; "Organic matter"]);
    ("Schist", ["Mica"; "Quartz"; "Feldspar"; "Garnet"; "Staurolite"]);
    ("Quartzite", ["Quartz (>95%)"; "Minor feldspar"; "Mica traces"]);
    ("Obsidian", ["Volcanic glass"; "Silica (70-75%)"; "Minimal crystals"]);
    ("Pumice", ["Volcanic glass"; "Silica"; "Gas bubbles (vesicles)"]);
    ("Scoria", ["Basaltic glass"; "Pyroxene"; "Plagioclase"; "Olivine"]) ].

Definition getComposition (rockName : string) : list string :=
  lookup_or compositionMap rockName ["Mineral composition varies"].

(** Lines 331-346. *)
Definition usesMap : list (string * list string) :=
  [ ("Granite", ["Construction material"; "Countertops"; "Monuments"; "Road aggregate"]);
    ("Basalt", ["Road construction"; "Railroad ballast"; "Concrete aggregate"; "Stone tools"]);
    ("Limestone", ["Cement production"; "Building stone"; "Agricultural lime"; "Steel production"]);
    ("Sandstone", ["Building stone"; "Paving material"; "Glass manufacturing"; "Filtration"]);
    ("Shale", ["Brick manufacturing"; "Ceramic production"; "Oil and gas extraction"]);
    ("Schist", ["Roofing material"; "Decorative stone"; "Road construction"]);
    ("Quartzite", ["Construction aggregate"; "Railroad ballast"; "Roofing granules"]);
    ("Obsidian", ["Surgical instruments"; "Decorative objects"; "Archaeological tools"]);
    ("Pumice", ["Abrasive material"; "Concrete aggregate"; "Horticulture"; "Personal care"]);
    ("Scoria", ["Landscaping"; "Construction aggregate"; "Drainage material"]) ].

Definition getUses (rockName : string) : list string :=
  lookup_or usesMap rockName ["Various industrial and construction applications"].

(** Lines 348-360. *)
Definition classificationMap : list (string * Classification) :=
  [ ("Granite", {| group := "Felsic Intrusive"; family := Some "Granitoid"; series := Some "Alkali Feldspar" |});
    ("Basalt", {| group := "Mafic Extrusive"; family := Some "Basaltic"; series := Some "Tholeiitic" |});
    ("Limestone", {| group := "Carbonate"; family := Some "Calcitic"; series := None |});
    ("Sandstone", {| group := "Clastic"; family := Some "Arenaceous"; series := None |});
    ("Shale", {| group := "Clastic"; family := Some "Argillaceous"; series := None |});
    ("Schist", {| group := "Foliated"; family := Some "Regional Metamorphic"; series := None |});
    ("Quartzite", {| group := "Non-foliated"; family := Some "Contact Metamorphic"; series := None |}) ].

Definition getClassification (rockName rockType : string) : Classification :=
  lookup_or classificationMap rockName
    {| group := rockType ++ " rock"; family := None; series := None |}.

(** The quotation mark, for the second granite fact. *)
Definition quote : string := String (ascii_of_nat 34) "".

(** Lines 362-382. *)
Definition funFactsMap : list (string * list string) :=
  [ ("Granite",
      [ "Granite makes up about 70-80% of the Earth's continental crust";
        "The word " ++ quote ++ "granite" ++ quote ++ " comes from the Latin "
          ++ quote ++ "granum" ++ quote ++ " meaning grain";
        "Some granite formations are over 3 billion years old" ]);
    ("Basalt",
      [ "Basalt covers about 70% of the Earth's surface, mostly on ocean floors";
        "The dark side of the Moon is primarily basaltic rock";
        "Basalt can form hexagonal columns when cooling slowly" ]);
    ("Limestone",
      [ "The Great Pyramid of Giza is built primarily from limestone blocks";
        "Limestone can contain fossils of ancient marine life";
        "Acid rain can dissolve limestone, forming caves and sinkholes" ]) ].

Definition getDefaultFunFacts (rockName : string) : list string :=
  lookup_or funFactsMap rockName
    [ rockName ++ " has unique geological properties that make it scientifically interesting." ].

(** Lines 248-276. *)
Definition enhanceRockData (basicData : RockData) (net : attempt Response)
  : EnrichedRock :=
  try_catch
    ( wikipediaData <- Done (fetchWikipediaData (name basicData) net) ;
      locationData <- Done (fetchLocationData (name basicData)) ;
      Done
        {| basicData := basicData;
           locations :=
             array_or (loc_locations locationData)
                      (getDefaultLocations (type basicData));
           composition := getComposition (name basicData);
           uses := getUses (name basicData);
           classification :=
             getClassification (name basicData) (type basicData);
           funFacts :=
             array_or (wiki_funFacts wikipediaData)
                      (getDefaultFunFacts (name basicData));
           image := wiki_image wikipediaData |} )
    {| basicData := basicData;
       locations := getDefaultLocations (type basicData);
       composition := getComposition (name basicData);
       uses := getUses (name basicData);
       classification :=
         getClassification (name basicData) (type basicData);
       funFacts := getDefaultFunFacts (name basicData);
       image := image_absent |}.

(* ================================================================== *)
(** ** The request handler *)

(** The [description] of a request body as JSON delivers it: the interface
    types it as an optional string, the handler takes whatever was sent.
    Of a number only its being zero is kept, of an array or object
    nothing: the code reads no more than truthiness and the method
    [toLowerCase]. *)
Inductive description_value : Type :=
| description_undefined
| description_null
| description_boolean (b : bool)
| description_number (zero : bool)
| description_string (s : string)
| description_object.

Record RockIdentificationRequest : Type := {
  req_description : description_value;
  req_imageAnalysis : option ImageAnalysis
}.

(** A request, as far as the handler reads it: its method and what
    [await req.json()] with the destructuring of its value comes to. *)
Record Request : Type := {
  method : string;
  req_json : attempt RockIdentificationRequest
}.

Inductive response_body : Type :=
| body_ok
| body_rock (enhancedData : EnrichedRock)
| body_error (error : string).

Record HttpResponse : Type := {
  status : Z;
  headers : list (string * string);
  body : response_body
}.

(** [{ ...o, key: value }] on an object given as its properties in
    order. *)
Fixpoint set_property (key value : string) (o : list (string * string))
  : list (string * string) :=
  match o with
  | [] => [(key, value)]
  | (k, v) :: rest =>
      if k === key then (k, value) :: rest
      else (k, v) :: set_property key value rest
  end.

(** [identifyRock(description, imageAnalysis)] on a description of any
    JSON type: a falsy one skips the parsing as an absent one does, a
    truthy one that is no string has no [toLowerCase] and throws. *)
Definition identifyRock_of_request (request : RockIdentificationRequest)
  : attempt RockData :=
  match req_description request with
  | description_string s =>
      Done (identifyRock (Some s) (req_imageAnalysis request))
  | description_undefined | description_null
  | description_boolean false | description_number true =>
      Done (identifyRock None (req_imageAnalysis request))
  | description_boolean true | description_number false
  | description_object => Threw
  end.

(** Lines 17-48.  [corsHeaders] is imported from a file outside the
    sources and taken as given. *)
Definition handler (corsHeaders : list (string * string))
    (req : Request) (net : attempt Response) : HttpResponse :=
  if method req === "OPTIONS" then
    {| status := 200; headers := corsHeaders; body := body_ok |}
  else
    try_catch
      ( request <- req_json req ;
        rockData <- identifyRock_of_request request ;
        enhancedData <- Done (enhanceRockData rockData net) ;
        Done {| status := 200;
                headers :=
                  set_property "Content-Type" "application/json" corsHeaders;
                body := body_rock enhancedData |} )
      {| status := 500;
         headers := set_property "Content-Type" "application/json" corsHeaders;
         body := body_error "Failed to identify rock" |}.

(* ================================================================== *)
(** ** The page that calls the function

    [identifyRock] of [src/pages/Index.tsx], lines 54-115.  The two calls
    of [supabase.functions.invoke] are inputs: what each comes to. *)

(** [String.prototype.trim]: on ASCII it strips the characters of [\s]. *)
Fixpoint trim_start (s : string) : string :=
  match s with
  | EmptyString => EmptyString
  | String c s' => if is_space c then trim_start s' else s
  end.

Fixpoint trim_end (s : string) : string :=
  match s with
  | EmptyString => EmptyString
  | String c s' =>
      match trim_end s' with
      | EmptyString => if is_space c then EmptyString else String c EmptyString
      | String _ _ as rest => String c rest
      end
  end.

Definition trim (s : string) : string := trim_end (trim_start s).

(** Lines 56-69: the body sent to the function.  [image] is the selected
    file, if any, given by the object URL it has; of the file the page
    uses nothing else. *)
Definition requestData (image : option string) (description : string)
  : RockIdentificationRequest :=
  {| req_description := description_string (trim description);
     req_imageAnalysis :=
       match image with
       | Some _ =>
           Some {| colors := ["varies"]; ia_texture := "unknown";
                   patterns := ["varies"] |}
       | None => None
       end |}.

(** The fields of the interface [RockData] of the page. *)
Record PageRock : Type := {
  shown_name : string;
  shown_type : string;
  shown_confidence : Z;
  shown_formation : string;
  shown_locations : list string;
  shown_composition : list string;
  shown_uses : list string;
  shown_classification : Classification;
  shown_funFacts : list string;
  shown_image : option string
}.

(** Lines 102-113: the fallback of the page. *)
Definition page_fallback : PageRock :=
  {| shown_name := "Granite";
     shown_type := "igneous";
     shown_confidence := 50;
     shown_formation := "Unable to determine exact formation process. Granite typically forms from slow cooling of magma.";
     shown_locations := ["Worldwide distribution"];
     shown_composition := ["Quartz"; "Feldspar"; "Mica"];
     shown_uses := ["Construction material"; "Decorative stone"];
     shown_classification :=
       {| group := "Igneous rock"; family := None; series := None |};
     shown_funFacts := ["Rock identification temporarily unavailable. Please try again."];
     shown_image := None |}.

(** Lines 71-114.  [identified] is what the call of identify-rock comes
    to: the data of its answer, or an error, returned (and then thrown by
    the page) or thrown.  [geological] is what the call of geological-data
    comes to: [enhancedData?.scientificData?.image], which a returned
    error leaves undefined, or a thrown error. *)
Definition page_identifyRock (image : option string)
    (identified : attempt EnrichedRock) (geological : attempt (option string))
  : PageRock :=
  try_catch
    ( data <- identified ;
      scientific_image <- geological ;
      Done {| shown_name := name (basicData data);
              shown_type := type (basicData data);
              shown_confidence := confidence (basicData data);
              shown_formation := formation (basicData data);
              shown_locations := locations data;
              shown_composition := composition data;
              shown_uses := uses data;
              shown_classification := classification data;
              shown_funFacts := funFacts data;
              shown_image :=
                match image with
                | Some url => Some url
                | None => scientific_image
                end |} )
    page_fallback.

(* ================================================================== *)
(** ** Vocabulary of the statements below *)

(** The rock names the classifier can return. *)
Definition catalog : list string :=
  [ "Granite"; "Basalt"; "Limestone"; "Sandstone"; "Marble"; "Slate";
    "Quartzite"; "Obsidian"; "Pumice"; "Scoria"; "Gabbro"; "Shale";
    "Schist" ].

(** The rock type every branch pairs with a name. *)
Definition rock_types : list (string * string) :=
  [ ("Granite", "igneous"); ("Basalt", "igneous");
    ("Limestone", "sedimentary"); ("Sandstone", "sedimentary");
    ("Marble", "metamorphic"); ("Slate", "metamorphic");
    ("Quartzite", "metamorphic"); ("Obsidian", "igneous");
    ("Pumice", "igneous"); ("Scoria", "igneous"); ("Gabbro", "igneous");
    ("Shale", "sedimentary"); ("Schist", "metamorphic") ].

(** The formation narrative of every branch but the final fallback. *)
Definition narratives : list (string * string) :=
  [ ("Granite", "Formed from slow cooling of felsic magma deep within the Earth's crust");
    ("Basalt", "Formed from rapid cooling of mafic lava flows on the Earth's surface");
    ("Limestone", "Formed from accumulation of marine organisms and chemical precipitation in warm, shallow seas");
    ("Sandstone", "Formed from cementation of sand-sized mineral particles, primarily quartz");
    ("Marble", "Formed from metamorphism of limestone or dolomite under heat and pressure");
    ("Slate", "Formed from low-grade metamorphism of shale or mudstone");
    ("Quartzite", "Formed from metamorphism of sandstone under high pressure and temperature");
    ("Obsidian", "Formed from rapid cooling of volcanic glass, preventing crystal formation");
    ("Pumice", "Formed from gas-filled volcanic eruptions that create a frothy, lightweight rock");
    ("Scoria", "Formed from basaltic or andesitic magma during Strombolian eruptions");
    ("Gabbro", "Formed from slow cooling of mafic magma deep within the Earth's crust");
    ("Shale", "Formed from compaction of clay and silt particles in quiet water environments");
    ("Schist", "Formed from medium-grade metamorphism of shale or other fine-grained rocks") ].

(** The rules of one dimension, in declaration order. *)
Definition rules_of (d : dimension) : list rule :=
  filter (fun r => dimension_eqb (dim r) d) extraction_rules.

(** The rule at index [i] of [rs] matches [desc] and no later rule of
    [rs] does. *)
Definition is_last_match (desc : string) (rs : list rule) (i : nat) (r : rule)
  : Prop :=
  nth_error rs i = Some r
  /\ desc =~ pattern r = true
  /\ forall j r', i < j -> nth_error rs j = Some r' ->
       desc =~ pattern r' = false.

(** The last rule of [rs] whose pattern matches [desc], computed from the
    end of the list. *)
Fixpoint last_matching (desc : string) (rs : list rule) : option rule :=
  match rs with
  | [] => None
  | r :: rest =>
      match last_matching desc rest with
      | Some r' => Some r'
      | None => if desc =~ pattern r then Some r else None
      end
  end.

(** The nine direct-mention branches in the order of the source: the
    pattern tested, the rock returned and its confidence. *)
Record mention : Type := {
  mention_pattern : regex;
  rock : string;
  fixed_confidence : Z
}.

Definition direct_mentions : list mention :=
  [ {| mention_pattern := "granite"; rock := "Granite"; fixed_confidence := 88 |};
    {| mention_pattern := "basalt"; rock := "Basalt"; fixed_confidence := 85 |};
    {| mention_pattern := "limestone" <|> "lime"; rock := "Limestone"; fixed_confidence := 82 |};
    {| mention_pattern := "sandstone" <|> "sand"; rock := "Sandstone"; fixed_confidence := 80 |};
    {| mention_pattern := "marble"; rock := "Marble"; fixed_confidence := 85 |};
    {| mention_pattern := "slate"; rock := "Slate"; fixed_confidence := 83 |};
    {| mention_pattern := "quartzite" <|> "quartz"; rock := "Quartzite"; fixed_confidence := 81 |};
    {| mention_pattern := "obsidian"; rock := "Obsidian"; fixed_confidence := 90 |};
    {| mention_pattern := "pumice"; rock := "Pumice"; fixed_confidence := 87 |} ].

(** No pattern of the mentions before index [i] occurs in the joined
    keyword string. *)
Definition none_earlier (c : Characteristics) (i : nat) : bool :=
  forallb (fun m => negb (keywordString c =~ mention_pattern m))
          (firstn i direct_mentions).

(** [fetchWikipediaData] on a fetch that failed: a rejected [fetch], a
    response that is not ok, or a body that [json()] rejects. *)
Definition fetch_failed (net : attempt Response) : bool :=
  match net with
  | Threw => true
  | Done response =>
      negb (ok response)
      || match json response with Threw => true | Done _ => false end
  end.

(** A character satisfying [P] occurs in [s]. *)
Fixpoint any_char (P : ascii -> bool) (s : string) : bool :=
  match s with
  | EmptyString => false
  | String c s' => P c || any_char P s'
  end.

Definition is_upper (c : ascii) : bool :=
  (65 <=? nat_of_ascii c)%nat && (nat_of_ascii c <=? 90)%nat.

Definition has_space (s : string) : bool := any_char is_space s.

Definition has_upper (s : string) : bool := any_char is_upper s.

(** Patterns that are alternations of literals free of white space, as
    all patterns tested on the keyword string are. *)
Fixpoint word_pattern (r : regex) : bool :=
  match r with
  | Lit w => negb (has_space w)
  | Alt r1 r2 => word_pattern r1 && word_pattern r2
  | AnyStar | Seq _ _ => false
  end.

(** No pattern of the mentions before index [i] occurs in [text]. *)
Definition none_earlier_in (text : string) (i : nat) : bool :=
  forallb (fun m => negb (text =~ mention_pattern m))
          (firstn i direct_mentions).

(** A description of a type the handler cannot parse: truthy and no
    string. *)
Definition unparsable (d : description_value) : bool :=
  match d with
  | description_boolean true | description_number false
  | description_object => true
  | _ => false
  end.

(** [s] is empty or all white space. *)
Definition blank (s : string) : bool :=
  negb (any_char (fun c => negb (is_space c)) s).

(** The last character of [s] is white space. *)
Fixpoint ends_with_space (s : string) : bool :=
  match s with
  | EmptyString => false
  | String c EmptyString => is_space c
  | String _ s' => ends_with_space s'
  end.

(* ================================================================== *)
(** ** The primitives on small inputs *)

Example split_keeps_empty_ends :
  split_whitespace "  dark   rock " = [""; "dark"; "rock"; ""].
Proof. reflexivity. Qed.

Example join_keywords : join " " ["dark"; "rock"] = "dark rock".
Proof. reflexivity. Qed.

Example toLowerCase_ascii : toLowerCase "Dark ROCK, 2cm" = "dark rock, 2cm".
Proof. reflexivity. Qed.

Example search_is_unanchored : "a sublime view" =~ "limestone" <|> "lime" = true.
Proof. reflexivity. Qed.

Example any_star_on_one_line :
  "easy to scratch" =~ "easy" +++ AnyStar +++ ("scratch" <|> "break") = true.
Proof. reflexivity. Qed.

Example any_star_stops_at_line_feed :
  String "e" (String "a" (String "s" (String "y"
    (String (ascii_of_nat 10) "scratch"))))
    =~ "easy" +++ AnyStar +++ ("scratch" <|> "break") = false.
Proof. reflexivity. Qed.

Example hardness_rules_in_order :
  map label (rules_of Hardness) = ["hard"; "soft"; "medium"].
Proof. reflexivity. Qed.

Example later_rule_overwrites :
  let c := parseCharacteristics (Some "coarse red rock with sheet") None in
  texture c = "foliated" /\ crystalSize c = "large" /\ color c = "red".
Proof. cbv zeta. repeat split; reflexivity. Qed.

(* ================================================================== *)
(** ** Early returns *)

Lemma or_continue_Some {A : Type} (s k : option A) (r : A) :
  (s ;; k) = Some r -> s = Some r \/ (s = None /\ k = Some r).
Proof.
  destruct s as [a|]; simpl; intros H.
  - left; exact H.
  - right; split; [reflexivity | exact H].
Qed.

Lemma when_Some {A : Type} (b : bool) (body : option A) (r : A) :
  when b body = Some r -> b = true /\ body = Some r.
Proof.
  destruct b; simpl; intros H; [split; [reflexivity | exact H] | discriminate H].
Qed.

(** Walks a block of [when ... ;; ...] statements known to return [r], one
    returning statement at a time; each goal left has [r] replaced by the
    record of one [return]. *)
Ltac returned H :=
  repeat match type of H with
    | (_ ;; _) = Some _ =>
        let H' := fresh "H" in
        apply or_continue_Some in H; destruct H as [H' | [_ H]];
        [ returned H' | ]
    | when _ _ = Some _ =>
        apply when_Some in H; destruct H as [_ H]
    | (if ?b then _ else _) = Some _ => destruct b
    | None = Some _ => discriminate H
    | Some _ = Some _ => injection H as <-
    end.

Ltac by_branch c :=
  unfold classifyRock;
  let H1 := fresh "H" in
  let H2 := fresh "H" in
  let H3 := fresh "H" in
  destruct (direct_mention c) eqn:H1; simpl or_continue;
  [ unfold direct_mention in H1; returned H1
  | destruct (characteristic_based c) eqn:H2; simpl or_continue;
    [ unfold characteristic_based in H2; returned H2
    | destruct (broad_fallback c) eqn:H3; simpl or_continue;
      [ unfold broad_fallback in H3; returned H3 | ] ] ].

Lemma direct_mention_range (c : Characteristics) (r : RockData) :
  direct_mention c = Some r -> (80 <= confidence r <= 90)%Z.
Proof.
  intros H. unfold direct_mention in H. returned H; simpl; lia.
Qed.

Lemma characteristic_based_range (c : Characteristics) (r : RockData) :
  characteristic_based c = Some r -> (65 <= confidence r <= 85)%Z.
Proof.
  intros H. unfold characteristic_based in H. returned H; simpl; lia.
Qed.

Lemma broad_fallback_range (c : Characteristics) (r : RockData) :
  broad_fallback c = Some r -> (55 <= confidence r <= 65)%Z.
Proof.
  intros H. unfold broad_fallback in H. returned H; simpl; lia.
Qed.

(* ================================================================== *)
(** ** Searching a joined keyword list *)

Lemma strip_app (p rest : string) : strip p (p ++ rest) = Some rest.
Proof.
  induction p as [|a p IH]; simpl.
  - reflexivity.
  - rewrite Ascii.eqb_refl. exact IH.
Qed.

Lemma search_at_start (p rest : string) : search (Lit p) (p ++ rest) = true.
Proof.
  assert (E : match_at (Lit p) (p ++ rest) (fun _ => true) = true)
    by (simpl; rewrite strip_app; reflexivity).
  destruct (p ++ rest); simpl in *; rewrite E; reflexivity.
Qed.

Lemma search_skip (r : regex) (before s : string) :
  search r s = true -> search r (before ++ s) = true.
Proof.
  intros H. induction before as [|a before IH]; simpl.
  - exact H.
  - rewrite IH. apply orb_true_r.
Qed.

Lemma search_Alt (r1 r2 : regex) (s : string) :
  search (Alt r1 r2) s = search r1 s || search r2 s.
Proof.
  induction s as [|a s IH].
  - simpl. repeat rewrite orb_false_r. reflexivity.
  - change (search (Alt r1 r2) (String a s))
      with ((match_at r1 (String a s) (fun _ => true)
             || match_at r2 (String a s) (fun _ => true))
            || search (Alt r1 r2) s).
    change (search r1 (String a s))
      with (match_at r1 (String a s) (fun _ => true) || search r1 s).
    change (search r2 (String a s))
      with (match_at r2 (String a s) (fun _ => true) || search r2 s).
    rewrite IH.
    destruct (match_at r1 (String a s) (fun _ => true)),
             (match_at r2 (String a s) (fun _ => true)),
             (search r1 s), (search r2 s); reflexivity.
Qed.

Lemma join_In (sep w : string) (l : list string) :
  In w l -> exists before after, join sep l = before ++ w ++ after.
Proof.
  induction l as [|x l IH]; intros Hin.
  - destruct Hin.
  - destruct Hin as [-> | Hin].
    + exists EmptyString.
      destruct l as [|y l].
      * exists EmptyString. simpl. clear. induction w; simpl; congruence.
      * exists (sep ++ join sep (y :: l)). reflexivity.
    + destruct (IH Hin) as (before & after & E).
      destruct l as [|y l]; [destruct Hin |].
      exists (x ++ sep ++ before), after.
      change (join sep (x :: y :: l)) with (x ++ sep ++ join sep (y :: l)).
      rewrite E. clear.
      induction x as [|a x IHx]; simpl.
      * induction sep as [|b sep IHs]; simpl; congruence.
      * congruence.
Qed.

(** A word of the keyword list occurs in the joined keyword string. *)
Lemma keyword_found (c : Characteristics) (w : string) :
  In w (keywords c) -> keywordString c =~ Lit w = true.
Proof.
  intros Hin. unfold keywordString, matches.
  destruct (join_In " " w (keywords c) Hin) as (before & after & ->).
  apply search_skip, search_at_start.
Qed.

(* ================================================================== *)
(** ** The extractor, one dimension at a time *)

Lemma get_assign (d d' : dimension) (v : string) (c : Characteristics) :
  get d (assign d' v c) = if dimension_eqb d' d then v else get d c.
Proof. destruct d, d'; reflexivity. Qed.

Lemma get_set_keywords (d : dimension) (ks : list string) (c : Characteristics) :
  get d (set_keywords ks c) = get d c.
Proof. destruct d; reflexivity. Qed.

Lemma get_set_dominantColors (d : dimension) (cs : list string)
    (c : Characteristics) :
  get d (set_dominantColors cs c) = get d c.
Proof. destruct d; reflexivity. Qed.

Lemma get_initial (d : dimension) : get d initial_characteristics = "unknown".
Proof. destruct d; reflexivity. Qed.

Create Rewrite HintDb characteristics.
#[local] Hint Rewrite get_set_keywords get_set_dominantColors get_initial
  : characteristics.

Section LastMatch.

Variable desc : string.

Lemma last_matching_none (rs : list rule) :
  last_matching desc rs = None ->
  forall r, In r rs -> desc =~ pattern r = false.
Proof.
  induction rs as [|r0 rs IH]; simpl; intros H r Hin.
  - destruct Hin.
  - destruct (last_matching desc rs) eqn:E; [discriminate H |].
    destruct (desc =~ pattern r0) eqn:Em; [discriminate H |].
    destruct Hin as [<- | Hin]; [exact Em | exact (IH eq_refl r Hin)].
Qed.

Lemma last_matching_unmatched (rs : list rule) :
  (forall r, In r rs -> desc =~ pattern r = false) ->
  last_matching desc rs = None.
Proof.
  induction rs as [|r0 rs IH]; intros Hall.
  - reflexivity.
  - simpl. rewrite IH.
    + rewrite (Hall r0 (or_introl eq_refl)). reflexivity.
    + intros r Hin. apply Hall. right. exact Hin.
Qed.

Lemma last_matching_some (rs : list rule) (r : rule) :
  last_matching desc rs = Some r -> exists i, is_last_match desc rs i r.
Proof.
  revert r. induction rs as [|r0 rs IH]; simpl; intros r H.
  - discriminate H.
  - destruct (last_matching desc rs) as [r1|] eqn:E.
    + injection H as <-.
      destruct (IH r1 eq_refl) as (i & Hn & Hm & Hlater).
      exists (S i). repeat split; [exact Hn | exact Hm |].
      intros [|j] r' Hlt Hj; [lia |].
      apply (Hlater j r'); [lia | exact Hj].
    + destruct (desc =~ pattern r0) eqn:Em; [| discriminate H].
      injection H as <-.
      exists 0. repeat split; [exact Em |].
      intros [|j] r' Hlt Hj; [lia |].
      apply (last_matching_none rs E r').
      exact (nth_error_In rs j Hj).
Qed.

(** Running the rules in order leaves in dimension [d] the label of the
    last rule of [d] that matched, or what was there before. *)
Lemma fold_rules_get (d : dimension) (rs : list rule) :
  forall c,
    get d (fold_left (apply_rule desc) rs c)
    = match last_matching desc
              (filter (fun r => dimension_eqb (dim r) d) rs) with
      | Some r => label r
      | None => get d c
      end.
Proof.
  induction rs as [|r rs IH]; intros c.
  - reflexivity.
  - simpl fold_left. rewrite IH. simpl filter.
    assert (Hget : get d (apply_rule desc c r)
                   = if dimension_eqb (dim r) d && (desc =~ pattern r)
                     then label r else get d c).
    { unfold apply_rule. destruct (desc =~ pattern r).
      - rewrite get_assign, andb_true_r. reflexivity.
      - rewrite andb_false_r. reflexivity. }
    rewrite Hget.
    destruct (dimension_eqb (dim r) d); simpl;
      destruct (last_matching desc
                  (filter (fun r0 => dimension_eqb (dim r0) d) rs));
      try reflexivity.
    destruct (desc =~ pattern r); reflexivity.
Qed.

End LastMatch.

(** No pattern of the extractor matches the empty text. *)
Lemma empty_text_unmatched (r : rule) :
  In r extraction_rules -> "" =~ pattern r = false.
Proof.
  assert (E : forallb (fun r => negb ("" =~ pattern r)) extraction_rules = true)
    by (vm_compute; reflexivity).
  intros Hin. rewrite forallb_forall in E.
  apply negb_true_iff. exact (E r Hin).
Qed.

Lemma rules_of_In (d : dimension) (r : rule) :
  In r (rules_of d) -> In r extraction_rules.
Proof.
  unfold rules_of. intros Hin. apply filter_In in Hin. exact (proj1 Hin).
Qed.

Lemma last_matching_empty (d : dimension) :
  last_matching "" (rules_of d) = None.
Proof.
  apply last_matching_unmatched. intros r Hin.
  apply empty_text_unmatched. exact (rules_of_In d r Hin).
Qed.

Lemma parse_get_empty (img : option ImageAnalysis) (d : dimension) :
  get d (parseCharacteristics (Some "") img) = "unknown".
Proof. destruct img, d; reflexivity. Qed.

Lemma parse_truthy (a : ascii) (s : string) (img : option ImageAnalysis) :
  parseCharacteristics (Some (String a s)) img
  = let desc := toLowerCase (String a s) in
    let c := fold_left (apply_rule desc) extraction_rules
               (set_keywords (split_whitespace desc) initial_characteristics) in
    match img with
    | Some ia => set_dominantColors (colors ia) c
    | None => c
    end.
Proof. reflexivity. Qed.

(** The dimension [d] of the extractor's result, for any description. *)
Lemma parse_get (description : string) (img : option ImageAnalysis)
    (d : dimension) :
  get d (parseCharacteristics (Some description) img)
  = match last_matching (toLowerCase description) (rules_of d) with
    | Some r => label r
    | None => "unknown"
    end.
Proof.
  destruct description as [|a s].
  - rewrite parse_get_empty.
    change (toLowerCase "") with "". rewrite last_matching_empty. reflexivity.
  - rewrite parse_truthy. cbv zeta.
    destruct img as [ia|]; autorewrite with characteristics;
      rewrite fold_rules_get; autorewrite with characteristics;
      unfold rules_of; reflexivity.
Qed.

(* ================================================================== *)
(** ** The extractor and the classifier: the claims *)

(** C4.  For the empty description and no image analysis the extractor
    yields "unknown" in all five dimensions and an empty keyword list, no
    rule of the first three tiers returns on that result, and the
    classifier returns the final fallback: Granite, igneous, confidence
    55.  An absent description is extracted alike. *)
Theorem empty_description_final_fallback :
  let c := parseCharacteristics (Some "") None in
  (texture c = "unknown" /\ color c = "unknown" /\ hardness c = "unknown"
   /\ luster c = "unknown" /\ crystalSize c = "unknown" /\ keywords c = [])
  /\ direct_mention c = None
  /\ characteristic_based c = None
  /\ broad_fallback c = None
  /\ classifyRock c = final_fallback
  /\ identifyRock (Some "") None
     = createRockData "Granite" "igneous" 55
         "Common igneous rock formed from cooling magma - identification needs more specific details"
         "plutonic" "phaneritic"
  /\ parseCharacteristics None None = c.
Proof.
  cbv zeta. repeat split; reflexivity.
Qed.

(** C5.  For every description and every dimension, the extractor leaves
    in the dimension the label of the last rule of that dimension, in
    declaration order, whose pattern matches the lowercased text (no later
    rule of the dimension matches), and "unknown" when no rule of the
    dimension matches. *)
Theorem last_matching_rule_wins
    (description : string) (img : option ImageAnalysis) (d : dimension) :
  let desc := toLowerCase description in
  let c := parseCharacteristics (Some description) img in
  (exists i r, is_last_match desc (rules_of d) i r /\ get d c = label r)
  \/ ((forall r, In r (rules_of d) -> desc =~ pattern r = false)
      /\ get d c = "unknown").
Proof.
  cbv zeta. rewrite parse_get.
  destruct (last_matching (toLowerCase description) (rules_of d))
    as [r|] eqn:E.
  - left. destruct (last_matching_some _ _ _ E) as (i & Hi).
    exists i, r. split; [exact Hi | reflexivity].
  - right. split; [exact (last_matching_none _ _ E) | reflexivity].
Qed.

(** C9.  The confidence the classifier returns lies between 0 and 100;
    a direct-mention branch returns a confidence in 80..90, a
    characteristic-based branch one in 65..85, a broad fallback branch one
    in 55..65, and the final fallback has confidence 55. *)
Theorem confidence_ranges (c : Characteristics) :
  (0 <= confidence (classifyRock c) <= 100)%Z
  /\ (forall r, direct_mention c = Some r -> (80 <= confidence r <= 90)%Z)
  /\ (forall r, characteristic_based c = Some r ->
        (65 <= confidence r <= 85)%Z)
  /\ (forall r, broad_fallback c = Some r -> (55 <= confidence r <= 65)%Z)
  /\ confidence final_fallback = 55%Z.
Proof.
  split; [| split; [| split; [| split]]].
  - by_branch c; simpl; lia.
  - exact (direct_mention_range c).
  - exact (characteristic_based_range c).
  - exact (broad_fallback_range c).
  - reflexivity.
Qed.

Lemma confidence_ranges_witness :
  (65 <= confidence
           (createRockData "Schist" "metamorphic" 68
              "Formed from medium-grade metamorphism of shale or other fine-grained rocks"
              "foliated" "schistose") <= 85)%Z.
Proof.
  apply (proj1 (proj2 (proj2
           (confidence_ranges
              (parseCharacteristics (Some "coarse red rock with sheet") None))))).
  reflexivity.
Defined.

Ltac in_list := repeat first [left; reflexivity | right].

(** C10.  The classifier returns a name of the catalog of thirteen rocks,
    never "unknown"; the type returned with a name is the one type
    [rock_types] gives that name, and the formation text is the one
    narrative of that name, except in the final fallback, whose text is
    its own. *)
Theorem classifier_catalog (c : Characteristics) :
  let r := classifyRock c in
  In (name r) catalog
  /\ name r <> "unknown"
  /\ lookup rock_types (name r) = Some (type r)
  /\ In (type r) ["igneous"; "metamorphic"; "sedimentary"]
  /\ (lookup narratives (name r) = Some (formation r) \/ r = final_fallback).
Proof.
  cbv zeta.
  by_branch c;
    (split; [in_list | split; [discriminate | split; [reflexivity |
       split; [in_list | first [left; reflexivity | right; reflexivity]]]]]).
Qed.

Lemma classifyRock_direct (c : Characteristics) (r : RockData) :
  direct_mention c = Some r -> classifyRock c = r.
Proof. intros H. unfold classifyRock. rewrite H. reflexivity. Qed.

Lemma classifyRock_characteristic (c : Characteristics) (r : RockData) :
  direct_mention c = None -> characteristic_based c = Some r ->
  classifyRock c = r.
Proof. intros H1 H2. unfold classifyRock. rewrite H1, H2. reflexivity. Qed.

(** C6.  The description "glassy shiny volcanic rock" resolves to texture
    "glassy" and is classified as Obsidian with confidence 85; and whenever
    no direct mention returns and the texture is "glassy", the glassy
    branch returns Obsidian with confidence 85, whatever the other
    characteristics (a "large" crystal size, any color) would select
    further down. *)
Theorem glassy_branch_first :
  (texture (parseCharacteristics (Some "glassy shiny volcanic rock") None)
   = "glassy"
   /\ identifyRock (Some "glassy shiny volcanic rock") None
      = createRockData "Obsidian" "igneous" 85
          "Formed from rapid cooling of volcanic glass, preventing crystal formation"
          "volcanic" "glassy")
  /\ forall c : Characteristics,
       direct_mention c = None ->
       texture c = "glassy" ->
       classifyRock c
       = createRockData "Obsidian" "igneous" 85
           "Formed from rapid cooling of volcanic glass, preventing crystal formation"
           "volcanic" "glassy".
Proof.
  split; [split; reflexivity |].
  intros c Hd Ht. apply classifyRock_characteristic; [exact Hd |].
  unfold characteristic_based. rewrite Ht. reflexivity.
Qed.

Lemma glassy_branch_first_witness :
  classifyRock
    {| texture := "glassy"; color := "dark"; hardness := "soft";
       luster := "vitreous"; crystalSize := "large";
       keywords := ["layers"; "of"; "mud"]; dominantColors := None |}
  = createRockData "Obsidian" "igneous" 85
      "Formed from rapid cooling of volcanic glass, preventing crystal formation"
      "volcanic" "glassy".
Proof.
  apply (proj2 glassy_branch_first); reflexivity.
Defined.

(** C7.  When no direct mention returns and the texture is "vesicular",
    the classifier returns Pumice with confidence 80 if the color is
    "light" and Scoria with confidence 75 otherwise; the description
    "porous light volcanic foam" has texture "vesicular" and color "light"
    and is classified as Pumice with confidence 80. *)
Theorem vesicular_branch :
  (forall c : Characteristics,
     direct_mention c = None ->
     texture c = "vesicular" ->
     (color c = "light" ->
      classifyRock c
      = createRockData "Pumice" "igneous" 80
          "Formed from gas-filled volcanic eruptions that create a frothy, lightweight rock"
          "volcanic" "vesicular")
     /\ (color c <> "light" ->
         classifyRock c
         = createRockData "Scoria" "igneous" 75
             "Formed from basaltic or andesitic magma during Strombolian eruptions"
             "volcanic" "vesicular"))
  /\ (let c := parseCharacteristics (Some "porous light volcanic foam") None in
      texture c = "vesicular" /\ color c = "light"
      /\ direct_mention c = None
      /\ name (classifyRock c) = "Pumice"
      /\ confidence (classifyRock c) = 80%Z
      /\ identifyRock (Some "porous light volcanic foam") None
         = createRockData "Pumice" "igneous" 80
             "Formed from gas-filled volcanic eruptions that create a frothy, lightweight rock"
             "volcanic" "vesicular").
Proof.
  split; [| cbv zeta; repeat split; reflexivity].
  intros c Hd Ht. split; intros Hc.
  - apply classifyRock_characteristic; [exact Hd |].
    unfold characteristic_based. rewrite Ht, Hc. reflexivity.
  - apply classifyRock_characteristic; [exact Hd |].
    unfold characteristic_based. rewrite Ht.
    apply String.eqb_neq in Hc. cbv zeta.
    change ("vesicular" === "glassy") with false.
    change ("vesicular" === "vesicular") with true.
    unfold when at 1 2. simpl orb. unfold or_continue at 1 2.
    rewrite Hc. reflexivity.
Qed.

Lemma vesicular_branch_witness :
  classifyRock
    {| texture := "vesicular"; color := "red"; hardness := "unknown";
       luster := "unknown"; crystalSize := "large";
       keywords := ["red"; "bubbles"]; dominantColors := None |}
  = createRockData "Scoria" "igneous" 75
      "Formed from basaltic or andesitic magma during Strombolian eruptions"
      "volcanic" "vesicular".
Proof.
  apply (proj1 vesicular_branch); [reflexivity | reflexivity | discriminate].
Defined.

(* ------------------------------------------------------------------ *)
(** *** Direct mentions *)

Lemma keyword_found_Alt_l (c : Characteristics) (w : string) (r : regex) :
  In w (keywords c) -> keywordString c =~ (Lit w <|> r) = true.
Proof.
  intros Hin. unfold matches. rewrite search_Alt.
  apply orb_true_iff. left. exact (keyword_found c w Hin).
Qed.

Ltac earlier_false H :=
  repeat (apply andb_prop in H;
          let H1 := fresh "Hno" in
          destruct H as [H1 H]; apply negb_true_iff in H1;
          unfold mention_pattern in H1; rewrite H1);
  clear H.

Lemma direct_mention_at (c : Characteristics) (i : nat) (m : mention) :
  nth_error direct_mentions i = Some m ->
  In (toLowerCase (rock m)) (keywords c) ->
  none_earlier c i = true ->
  exists r,
    direct_mention c = Some r
    /\ name r = rock m
    /\ confidence r = fixed_confidence m
    /\ lookup rock_types (rock m) = Some (type r)
    /\ lookup narratives (rock m) = Some (formation r).
Proof.
  intros Hn Hin Hearlier. unfold none_earlier in Hearlier.
  do 9 (destruct i as [|i];
        [ injection Hn as <-;
          match type of Hin with
          | In ?x _ =>
              let w := eval vm_compute in x in
              change (In w (keywords c)) in Hin
          end;
          unfold direct_mentions in Hearlier;
          simpl firstn in Hearlier; simpl forallb in Hearlier;
          unfold direct_mention; cbv zeta;
          earlier_false Hearlier;
          first [ rewrite (keyword_found c _ Hin)
                | rewrite (keyword_found_Alt_l c _ _ Hin) ];
          eexists; split; [reflexivity | repeat split; reflexivity]
        | ]).
  simpl in Hn. destruct i; discriminate Hn.
Qed.

(** C2, as the code has it.  For every description whose keyword list
    holds the lowercased name of one of the nine rocks with a direct-mention
    branch (granite, basalt, limestone, sandstone, marble, slate, quartzite,
    obsidian, pumice), and in whose joined keywords no pattern of an
    earlier direct-mention branch occurs, the classifier returns through
    that rock's direct-mention branch: the rock's name, its fixed
    confidence (in 80..90), its type and its narrative, whatever else the
    description says. *)
Theorem direct_mention_short_circuit
    (description : string) (img : option ImageAnalysis)
    (i : nat) (m : mention) :
  let c := parseCharacteristics (Some description) img in
  let r := identifyRock (Some description) img in
  nth_error direct_mentions i = Some m ->
  In (toLowerCase (rock m)) (keywords c) ->
  none_earlier c i = true ->
  direct_mention c = Some r
  /\ name r = rock m
  /\ confidence r = fixed_confidence m
  /\ (80 <= confidence r <= 90)%Z
  /\ lookup rock_types (rock m) = Some (type r)
  /\ lookup narratives (rock m) = Some (formation r).
Proof.
  cbv zeta. intros Hn Hin Hearlier.
  destruct (direct_mention_at _ i m Hn Hin Hearlier)
    as (r & Hr & Hname & Hconf & Htype & Hform).
  unfold identifyRock. rewrite (classifyRock_direct _ r Hr).
  repeat split; try assumption.
  - apply (direct_mention_range _ r Hr).
  - apply (direct_mention_range _ r Hr).
Qed.

Lemma direct_mention_short_circuit_witness :
  let c := parseCharacteristics
             (Some "Soft crumbly white LIMESTONE with glassy bubbles") None in
  let r := identifyRock
             (Some "Soft crumbly white LIMESTONE with glassy bubbles") None in
  direct_mention c = Some r
  /\ name r = "Limestone"
  /\ confidence r = 82%Z
  /\ (80 <= confidence r <= 90)%Z
  /\ lookup rock_types "Limestone" = Some (type r)
  /\ lookup narratives "Limestone" = Some (formation r).
Proof.
  apply (direct_mention_short_circuit
           "Soft crumbly white LIMESTONE with glassy bubbles" None 2
           {| mention_pattern := "limestone" <|> "lime"; rock := "Limestone";
              fixed_confidence := 82 |}).
  - reflexivity.
  - vm_compute. in_list.
  - vm_compute. reflexivity.
Defined.

(** C2 as stated fails twice.  "gabbro" is the lowercased name of a rock
    of the catalog and a keyword of the description "gabbro", yet no
    direct-mention branch returns and the classifier answers with the
    final fallback, Granite at confidence 55.  "basalt" is a keyword of
    "basalt granite", yet the classifier returns Granite, whose branch
    comes first. *)
Lemma direct_mention_counterexample :
  (In "Gabbro" catalog
   /\ In (toLowerCase "Gabbro")
         (keywords (parseCharacteristics (Some "gabbro") None))
   /\ direct_mention (parseCharacteristics (Some "gabbro") None) = None
   /\ identifyRock (Some "gabbro") None = final_fallback
   /\ name (identifyRock (Some "gabbro") None) <> "Gabbro")
  /\ (In "Basalt" catalog
      /\ In (toLowerCase "Basalt")
            (keywords (parseCharacteristics (Some "basalt granite") None))
      /\ name (identifyRock (Some "basalt granite") None) = "Granite"
      /\ name (identifyRock (Some "basalt granite") None) <> "Basalt").
Proof.
  repeat match goal with |- _ /\ _ => split end;
    vm_compute; first [ reflexivity | discriminate | in_list ].
Qed.

(* ================================================================== *)
(** ** The enrichment stage: the claims *)

Lemma lookup_or_cases {A : Type} (P : A -> Prop)
    (table : list (string * A)) (key : string) (fallback : A) :
  Forall (fun entry => P (snd entry)) table ->
  P fallback ->
  P (lookup_or table key fallback).
Proof.
  intros Htable Hfallback. unfold lookup_or, lookup.
  destruct (find (fun entry => fst entry === key) table) as [entry|] eqn:E.
  - apply find_some in E. destruct E as [Hin _].
    rewrite Forall_forall in Htable. exact (Htable entry Hin).
  - exact Hfallback.
Qed.

Lemma lookup_or_absent {A : Type}
    (table : list (string * A)) (key : string) (fallback : A) :
  lookup table key = None -> lookup_or table key fallback = fallback.
Proof. intros H. unfold lookup_or. rewrite H. reflexivity. Qed.

Lemma getDefaultFunFacts_nonempty (rockName : string) :
  getDefaultFunFacts rockName <> [].
Proof.
  unfold getDefaultFunFacts. apply lookup_or_cases.
  - repeat constructor; discriminate.
  - discriminate.
Qed.

Lemma getDefaultLocations_nonempty (rockType : string) :
  getDefaultLocations rockType <> [].
Proof.
  unfold getDefaultLocations. apply lookup_or_cases.
  - repeat constructor; discriminate.
  - discriminate.
Qed.

Lemma fetchWikipediaData_failed (rockName : string) (net : attempt Response) :
  fetch_failed net = true ->
  fetchWikipediaData rockName net
  = {| wiki_funFacts := []; wiki_image := image_null |}.
Proof.
  destruct net as [[[] [data|]]|]; simpl; intros H;
    first [discriminate H | reflexivity].
Qed.

Lemma enhanceRockData_funFacts (basicData : RockData) (net : attempt Response) :
  funFacts (enhanceRockData basicData net)
  = wiki_funFacts (fetchWikipediaData (name basicData) net).
Proof. reflexivity. Qed.

(** C1, on the code.  When the Wikipedia fetch fails (a rejected [fetch],
    a response that is not ok, a body that cannot be read), the enriched
    rock has an empty [funFacts], although the static fallback for its name
    is never empty: the empty array handed back by [fetchWikipediaData] is
    truthy, so [||] keeps it.  For Granite the three static facts are
    lost. *)
Theorem funFacts_empty_on_failed_fetch (basicData : RockData) :
  (forall net : attempt Response,
     fetch_failed net = true ->
     funFacts (enhanceRockData basicData net) = [])
  /\ getDefaultFunFacts (name basicData) <> []
  /\ funFacts (enhanceRockData (identifyRock (Some "granite") None) Threw) = []
  /\ getDefaultFunFacts "Granite"
     = [ "Granite makes up about 70-80% of the Earth's continental crust";
         "The word " ++ quote ++ "granite" ++ quote ++ " comes from the Latin "
          ++ quote ++ "granum" ++ quote ++ " meaning grain";
         "Some granite formations are over 3 billion years old" ].
Proof.
  split; [| split; [| split]].
  - intros net Hfail.
    rewrite enhanceRockData_funFacts, (fetchWikipediaData_failed _ net Hfail).
    reflexivity.
  - apply getDefaultFunFacts_nonempty.
  - reflexivity.
  - reflexivity.
Qed.

(** C3, on the code.  The location lookup always returns an empty list,
    and the enriched rock keeps that empty list whatever the fetch did,
    although the default list for its type is never empty: the empty array
    is truthy, so [||] keeps it.  For an igneous rock the four default
    regions are lost. *)
Theorem locations_empty_after_enrichment
    (basicData : RockData) (net : attempt Response) :
  loc_locations (fetchLocationData (name basicData)) = []
  /\ locations (enhanceRockData basicData net) = []
  /\ getDefaultLocations (type basicData) <> []
  /\ getDefaultLocations "igneous"
     = [ "Volcanic regions"; "Mountain ranges"; "Oceanic islands";
         "Continental margins" ]
  /\ getDefaultLocations "mineral" = [ "Worldwide distribution" ].
Proof.
  split; [reflexivity | split; [reflexivity | split; [| split; reflexivity]]].
  apply getDefaultLocations_nonempty.
Qed.

(** C8, on the code.  For a rock name absent from the static tables the
    enriched rock has the generic composition and uses and a
    classification whose group is the supplied type followed by " rock",
    and the static fun-fact lookup yields the one generic sentence with the
    name; but when the fetch fails the enriched [funFacts] is the empty
    list all the same.  Marble, returned by the classifier, is such a
    name. *)
Theorem unrecognized_name_enrichment
    (basicData : RockData) (net : attempt Response) :
  (lookup compositionMap (name basicData) = None ->
   composition (enhanceRockData basicData net)
   = [ "Mineral composition varies" ])
  /\ (lookup usesMap (name basicData) = None ->
      uses (enhanceRockData basicData net)
      = [ "Various industrial and construction applications" ])
  /\ (lookup classificationMap (name basicData) = None ->
      group (classification (enhanceRockData basicData net))
      = type basicData ++ " rock")
  /\ (lookup funFactsMap (name basicData) = None ->
      getDefaultFunFacts (name basicData)
      = [ name basicData
          ++ " has unique geological properties that make it scientifically interesting." ])
  /\ (fetch_failed net = true ->
      funFacts (enhanceRockData basicData net) = [])
  /\ (let marble := identifyRock (Some "marble") None in
      name marble = "Marble"
      /\ lookup compositionMap (name marble) = None
      /\ lookup usesMap (name marble) = None
      /\ lookup classificationMap (name marble) = None
      /\ lookup funFactsMap (name marble) = None
      /\ funFacts (enhanceRockData marble Threw) = []
      /\ group (classification (enhanceRockData marble Threw))
         = "metamorphic rock").
Proof.
  split; [| split; [| split; [| split; [| split]]]].
  - intros H. exact (lookup_or_absent _ _ _ H).
  - intros H. exact (lookup_or_absent _ _ _ H).
  - intros H.
    change (classification (enhanceRockData basicData net))
      with (getClassification (name basicData) (type basicData)).
    unfold getClassification. rewrite (lookup_or_absent _ _ _ H). reflexivity.
  - intros H. exact (lookup_or_absent _ _ _ H).
  - intros Hfail.
    rewrite enhanceRockData_funFacts, (fetchWikipediaData_failed _ net Hfail).
    reflexivity.
  - cbv zeta. repeat split; reflexivity.
Qed.

(* ================================================================== *)
(** ** Further properties of the extractor *)

Lemma lower_char_idempotent (c : ascii) :
  lower_char (lower_char c) = lower_char c.
Proof. destruct c as [[] [] [] [] [] [] [] []]; reflexivity. Qed.

Lemma toLowerCase_idempotent (s : string) :
  toLowerCase (toLowerCase s) = toLowerCase s.
Proof.
  induction s as [|c s IH]; simpl.
  - reflexivity.
  - rewrite lower_char_idempotent, IH. reflexivity.
Qed.

Lemma parse_falsy (img : option ImageAnalysis) :
  parseCharacteristics (Some "") img = parseCharacteristics None img.
Proof. reflexivity. Qed.

(** The extractor does not tell a description from its lowercased form,
    hence neither does the identification: upper and lower case letters
    of a description are interchangeable. *)
Theorem identification_ignores_case
    (description : string) (img : option ImageAnalysis) :
  parseCharacteristics (Some (toLowerCase description)) img
  = parseCharacteristics (Some description) img
  /\ identifyRock (Some (toLowerCase description)) img
     = identifyRock (Some description) img.
Proof.
  assert (E : parseCharacteristics (Some (toLowerCase description)) img
              = parseCharacteristics (Some description) img).
  { destruct description as [|a s].
    - reflexivity.
    - change (toLowerCase (String a s))
        with (String (lower_char a) (toLowerCase s)).
      rewrite !parse_truthy. cbv zeta.
      change (String (lower_char a) (toLowerCase s))
        with (toLowerCase (String a s)).
      rewrite toLowerCase_idempotent. reflexivity. }
  split; [exact E |].
  unfold identifyRock. cbv zeta. rewrite E. reflexivity.
Qed.

Lemma parse_with_image (description : option string) (ia : ImageAnalysis) :
  parseCharacteristics description (Some ia)
  = set_dominantColors (colors ia) (parseCharacteristics description None).
Proof. reflexivity. Qed.

Lemma direct_mention_frame (cs : list string) (c : Characteristics) :
  direct_mention (set_dominantColors cs c) = direct_mention c.
Proof. reflexivity. Qed.

Lemma characteristic_based_frame (cs : list string) (c : Characteristics) :
  characteristic_based (set_dominantColors cs c) = characteristic_based c.
Proof. reflexivity. Qed.

Lemma broad_fallback_frame (cs : list string) (c : Characteristics) :
  broad_fallback (set_dominantColors cs c) = broad_fallback c.
Proof. reflexivity. Qed.

Lemma fold_rules_frame (desc : string) (rs : list rule) :
  forall c,
    keywords (fold_left (apply_rule desc) rs c) = keywords c
    /\ dominantColors (fold_left (apply_rule desc) rs c) = dominantColors c.
Proof.
  induction rs as [|r rs IH]; intros c.
  - split; reflexivity.
  - simpl fold_left. destruct (IH (apply_rule desc c r)) as [Hk Hd].
    rewrite Hk, Hd. unfold apply_rule.
    destruct (desc =~ pattern r); [| split; reflexivity].
    destruct (dim r); split; reflexivity.
Qed.

Lemma fold_rules_keywords (desc : string) (rs : list rule) (c : Characteristics) :
  keywords (fold_left (apply_rule desc) rs c) = keywords c.
Proof. exact (proj1 (fold_rules_frame desc rs c)). Qed.

Lemma fold_rules_dominantColors (desc : string) (rs : list rule)
    (c : Characteristics) :
  dominantColors (fold_left (apply_rule desc) rs c) = dominantColors c.
Proof. exact (proj2 (fold_rules_frame desc rs c)). Qed.

Lemma keywords_set_dominantColors (cs : list string) (c : Characteristics) :
  keywords (set_dominantColors cs c) = keywords c.
Proof. reflexivity. Qed.

(** The keywords of a non-empty description are the pieces of its
    lowercased text. *)
Lemma parse_keywords (a : ascii) (s : string) (img : option ImageAnalysis) :
  keywords (parseCharacteristics (Some (String a s)) img)
  = split_whitespace (toLowerCase (String a s)).
Proof.
  rewrite parse_truthy. cbv zeta.
  destruct img as [ia|]; [rewrite keywords_set_dominantColors |];
    rewrite fold_rules_keywords; reflexivity.
Qed.

Lemma parse_dominantColors_none (description : option string) :
  dominantColors (parseCharacteristics description None) = None.
Proof.
  destruct description as [[|a s]|]; try reflexivity.
  rewrite parse_truthy. cbv zeta.
  rewrite fold_rules_dominantColors. reflexivity.
Qed.

(** The image analysis is passed through and never consulted: its colors
    end up in [dominantColors], the five dimensions and the keywords are
    those of the description alone, and the identification is the one the
    description gets without any image analysis. *)
Theorem image_analysis_is_ignored
    (description : option string) (ia : ImageAnalysis) :
  let with_image := parseCharacteristics description (Some ia) in
  let without := parseCharacteristics description None in
  dominantColors with_image = Some (colors ia)
  /\ dominantColors without = None
  /\ (forall d, get d with_image = get d without)
  /\ keywords with_image = keywords without
  /\ identifyRock description (Some ia) = identifyRock description None.
Proof.
  cbv zeta. rewrite parse_with_image.
  split; [reflexivity |].
  split; [apply parse_dominantColors_none |].
  split; [intros d; apply get_set_dominantColors |].
  split; [reflexivity |].
  unfold identifyRock. cbv zeta. rewrite parse_with_image.
  unfold classifyRock.
  rewrite direct_mention_frame, characteristic_based_frame,
    broad_fallback_frame.
  reflexivity.
Qed.

Lemma last_matching_In (desc : string) (rs : list rule) (r : rule) :
  last_matching desc rs = Some r -> In r rs.
Proof.
  intros H. destruct (last_matching_some desc rs r H) as (i & Hn & _).
  exact (nth_error_In rs i Hn).
Qed.

Lemma parse_get_absent (img : option ImageAnalysis) (d : dimension) :
  get d (parseCharacteristics None img) = "unknown".
Proof. destruct img, d; reflexivity. Qed.

Lemma parse_get_closed (description : option string)
    (img : option ImageAnalysis) (d : dimension) :
  In (get d (parseCharacteristics description img))
     ("unknown" :: map label (rules_of d)).
Proof.
  destruct description as [description|].
  - rewrite parse_get. generalize (rules_of d). intros rs.
    destruct (last_matching (toLowerCase description) rs) as [r|] eqn:E.
    + apply in_cons, in_map. exact (last_matching_In _ _ _ E).
    + apply in_eq.
  - rewrite parse_get_absent. apply in_eq.
Qed.

(** Whatever the description, each dimension of the extractor's result
    is "unknown" or one of the labels the rules of that dimension
    assign. *)
Theorem extracted_values_closed
    (description : option string) (img : option ImageAnalysis) :
  let c := parseCharacteristics description img in
  In (texture c)
     [ "unknown"; "coarse"; "fine"; "glassy"; "vesicular"; "layered";
       "foliated"; "crystalline" ]
  /\ In (color c)
        [ "unknown"; "dark"; "light"; "red"; "green"; "gray"; "brown";
          "yellow"; "blue" ]
  /\ In (hardness c) [ "unknown"; "hard"; "soft"; "medium" ]
  /\ In (luster c) [ "unknown"; "metallic"; "dull"; "vitreous"; "pearly" ]
  /\ In (crystalSize c) [ "unknown"; "large"; "small"; "none" ].
Proof.
  cbv zeta.
  split; [exact (parse_get_closed description img Texture) |].
  split; [exact (parse_get_closed description img Color) |].
  split; [exact (parse_get_closed description img Hardness) |].
  split; [exact (parse_get_closed description img Luster) |].
  exact (parse_get_closed description img CrystalSize).
Qed.

Ltac not_listed H :=
  repeat (destruct H as [H | H]; [rewrite <- H; reflexivity |]);
  destruct H.

(** Three tests of the classifier never hold on what the extractor
    produces: the texture is never "porous" and the color is never
    "black" or "white", so on the path from a description those
    alternatives of the classifier's conditions are dead. *)
Theorem extractor_never_yields
    (description : option string) (img : option ImageAnalysis) :
  let c := parseCharacteristics description img in
  (texture c === "porous") = false
  /\ (color c === "black") = false
  /\ (color c === "white") = false.
Proof.
  cbv zeta.
  destruct (extracted_values_closed description img) as (Ht & Hc & _).
  cbv zeta in Ht, Hc.
  split; [| split].
  - not_listed Ht.
  - not_listed Hc.
  - not_listed Hc.
Qed.

(* ------------------------------------------------------------------ *)
(** *** The keyword list *)

Lemma any_char_app (P : ascii -> bool) (a b : string) :
  any_char P (a ++ b) = any_char P a || any_char P b.
Proof.
  induction a as [|c a IH]; simpl.
  - reflexivity.
  - rewrite IH. apply orb_assoc.
Qed.

(** If the only characters of [s] that satisfy [P] are white space, no
    piece of [s] holds a character satisfying [P]. *)
Lemma split_from_any_char (P : ascii -> bool) (s : string) :
  any_char (fun c => P c && negb (is_space c)) s = false ->
  forall tok in_sep,
    any_char P tok = false ->
    Forall (fun w => any_char P w = false) (split_from s tok in_sep).
Proof.
  induction s as [|c s IH]; simpl; intros Hs tok in_sep Htok.
  - constructor; [exact Htok | constructor].
  - apply orb_false_iff in Hs. destruct Hs as [Hc Hs].
    destruct (is_space c) eqn:Ec.
    + destruct in_sep.
      * apply IH; assumption.
      * constructor; [exact Htok |]. apply IH; [exact Hs | reflexivity].
    + apply IH; [exact Hs |].
      rewrite any_char_app, Htok. simpl.
      rewrite andb_true_r in Hc. rewrite Hc. reflexivity.
Qed.

Lemma split_from_not_nil (s tok : string) (in_sep : bool) :
  split_from s tok in_sep <> [].
Proof.
  revert tok in_sep. induction s as [|c s IH]; simpl; intros tok in_sep.
  - discriminate.
  - destruct (is_space c); [destruct in_sep |]; first [apply IH | discriminate].
Qed.

Lemma lower_char_not_upper (c : ascii) : is_upper (lower_char c) = false.
Proof. destruct c as [[] [] [] [] [] [] [] []]; reflexivity. Qed.

Lemma toLowerCase_no_upper (P : ascii -> bool) (s : string) :
  any_char (fun c => is_upper c && P c) (toLowerCase s) = false.
Proof.
  induction s as [|c s IH]; simpl.
  - reflexivity.
  - rewrite lower_char_not_upper, IH. reflexivity.
Qed.

Lemma any_char_space_only (s : string) :
  any_char (fun c => is_space c && negb (is_space c)) s = false.
Proof.
  induction s as [|c s IH]; simpl.
  - reflexivity.
  - rewrite IH. destruct (is_space c); reflexivity.
Qed.

(** The keywords of a description hold neither white space nor capital
    letters; a non-empty description has at least one keyword (an empty
    one where the text starts or ends with white space), the empty
    description has none. *)
Theorem keywords_are_lowercase_words
    (description : string) (img : option ImageAnalysis) :
  let ks := keywords (parseCharacteristics (Some description) img) in
  Forall (fun w => has_space w = false /\ has_upper w = false) ks
  /\ (description <> "" -> ks <> [])
  /\ (description = "" -> ks = []).
Proof.
  cbv zeta. destruct description as [|a s].
  - split; [| split].
    + destruct img; constructor.
    + intros H. destruct (H eq_refl).
    + intros _. destruct img; reflexivity.
  - rewrite parse_keywords. unfold split_whitespace.
    split; [| split].
    + apply Forall_forall. intros w Hw. split.
      * assert (F := split_from_any_char is_space _
                       (any_char_space_only (toLowerCase (String a s)))
                       "" false eq_refl).
        rewrite Forall_forall in F. exact (F w Hw).
      * assert (F := split_from_any_char is_upper _
                       (toLowerCase_no_upper (fun c => negb (is_space c))
                          (String a s))
                       "" false eq_refl).
        rewrite Forall_forall in F. exact (F w Hw).
    + intros _. apply split_from_not_nil.
    + intros H. discriminate H.
Qed.

(* ------------------------------------------------------------------ *)
(** *** Searching the keyword string and searching the text *)

Lemma search_cons (r : regex) (c : ascii) (s : string) :
  search r (String c s)
  = match_at r (String c s) (fun _ => true) || search r s.
Proof. reflexivity. Qed.

Lemma search_nil (r : regex) :
  search r "" = match_at r "" (fun _ => true).
Proof. simpl. apply orb_false_r. Qed.

(** A literal free of white space cannot match across a white-space
    character: whether it matches at the start of [a] is not changed by
    what follows the white space after [a]. *)
Lemma match_before_space (w : string) :
  has_space w = false ->
  forall (a : string) (c : ascii) (b : string),
    is_space c = true ->
    match_at (Lit w) (a ++ String c b) (fun _ => true)
    = match_at (Lit w) a (fun _ => true).
Proof.
  induction w as [|x w IH]; intros Hw a c b Hc.
  - reflexivity.
  - unfold has_space in Hw. simpl in Hw.
    apply orb_false_iff in Hw. destruct Hw as [Hx Hw].
    destruct a as [|y a]; simpl.
    + destruct (Ascii.eqb_spec x c) as [-> | _]; [congruence | reflexivity].
    + destruct (Ascii.eqb x y); [| reflexivity].
      exact (IH Hw a c b Hc).
Qed.

Lemma search_around_space (w a : string) (c : ascii) (b : string) :
  has_space w = false -> is_space c = true ->
  search (Lit w) (a ++ String c b) = search (Lit w) a || search (Lit w) b.
Proof.
  intros Hw Hc. induction a as [|y a IH].
  - change ("" ++ String c b) with (String c b).
    rewrite search_cons, search_nil.
    rewrite <- (match_before_space w Hw "" c b Hc). reflexivity.
  - change (String y a ++ String c b) with (String y (a ++ String c b)).
    rewrite !search_cons, IH.
    change (String y (a ++ String c b)) with (String y a ++ String c b).
    rewrite (match_before_space w Hw (String y a) c b Hc).
    rewrite !orb_assoc. reflexivity.
Qed.

Lemma search_empty_text (w s : string) :
  search (Lit w) "" = true -> search (Lit w) s = true.
Proof.
  destruct w as [|x w]; [| discriminate].
  intros _. destruct s; reflexivity.
Qed.

Lemma search_join (w : string) (l : list string) :
  has_space w = false -> l <> [] ->
  search (Lit w) (join " " l) = existsb (search (Lit w)) l.
Proof.
  intros Hw. induction l as [|x l IH]; intros Hl.
  - destruct (Hl eq_refl).
  - destruct l as [|y l].
    + simpl join. simpl existsb. rewrite orb_false_r. reflexivity.
    + change (join " " (x :: y :: l))
        with (x ++ String " " (join " " (y :: l))).
      rewrite (search_around_space w x " " _ Hw eq_refl).
      rewrite IH by discriminate. reflexivity.
Qed.

Lemma search_split (w : string) (s : string) :
  has_space w = false ->
  (forall tok,
     search (Lit w) (tok ++ s)
     = existsb (search (Lit w)) (split_from s tok false))
  /\ search (Lit w) s = existsb (search (Lit w)) (split_from s "" true).
Proof.
  intros Hw. induction s as [|c s [IHf IHt]].
  - split.
    + intros tok. simpl split_from. simpl existsb. rewrite orb_false_r.
      replace (tok ++ "") with tok; [reflexivity |].
      clear. induction tok; simpl; congruence.
    + simpl split_from. simpl existsb. rewrite orb_false_r. reflexivity.
  - split.
    + intros tok. simpl split_from. destruct (is_space c) eqn:Ec.
      * simpl existsb. rewrite <- IHt.
        apply search_around_space; assumption.
      * rewrite <- IHf. f_equal.
        clear. induction tok; simpl; congruence.
    + simpl split_from. destruct (is_space c) eqn:Ec.
      * rewrite <- IHt.
        change (search (Lit w) (String c s))
          with (search (Lit w) ("" ++ String c s)).
        rewrite (search_around_space w "" c s Hw Ec).
        destruct (search (Lit w) "") eqn:E; [| reflexivity].
        rewrite (search_empty_text w s E). reflexivity.
      * rewrite <- IHf. reflexivity.
Qed.

Lemma keyword_search_Lit (w text : string) :
  has_space w = false ->
  search (Lit w) (join " " (split_whitespace text)) = search (Lit w) text.
Proof.
  intros Hw. unfold split_whitespace.
  rewrite search_join; [| exact Hw | apply split_from_not_nil].
  symmetry. exact (proj1 (search_split w text Hw) "").
Qed.

Lemma keyword_search (r : regex) (text : string) :
  word_pattern r = true ->
  search r (join " " (split_whitespace text)) = search r text.
Proof.
  induction r as [w | | r1 IH1 r2 IH2 | r1 IH1 r2 IH2]; simpl; intros Hr.
  - apply keyword_search_Lit. apply negb_true_iff. exact Hr.
  - discriminate Hr.
  - discriminate Hr.
  - apply andb_prop in Hr. destruct Hr as [H1 H2].
    rewrite !search_Alt, IH1, IH2 by assumption. reflexivity.
Qed.

Lemma parse_keywordString (description : string) (img : option ImageAnalysis)
    (r : regex) :
  word_pattern r = true ->
  keywordString (parseCharacteristics (Some description) img) =~ r
  = toLowerCase description =~ r.
Proof.
  intros Hr. unfold keywordString, matches.
  destruct description as [|a s].
  - destruct img; reflexivity.
  - rewrite parse_keywords. exact (keyword_search r _ Hr).
Qed.

(** A test of the classifier on the joined keywords is a test on the
    lowercased description itself: for a pattern that is an alternation of
    literals free of white space, as all the classifier's patterns are,
    splitting the text at white space and joining the pieces with spaces
    neither adds nor loses a match.  So the keyword tests are substring
    tests on the text, not tests on whole keywords. *)
Theorem keyword_test_is_substring_test
    (description : string) (img : option ImageAnalysis) (r : regex) :
  word_pattern r = true ->
  keywordString (parseCharacteristics (Some description) img) =~ r
  = toLowerCase description =~ r.
Proof. exact (parse_keywordString description img r). Qed.

Lemma keyword_test_is_substring_test_witness :
  keywordString
    (parseCharacteristics (Some "A  sublime
 view") None) =~ "limestone" <|> "lime"
  = toLowerCase "A  sublime
 view" =~ "limestone" <|> "lime".
Proof.
  apply (keyword_test_is_substring_test "A  sublime
 view" None ("limestone" <|> "lime")).
  reflexivity.
Defined.

(* ================================================================== *)
(** ** Further properties of the classifier *)

Lemma direct_mention_first_match (c : Characteristics) (i : nat) (m : mention) :
  nth_error direct_mentions i = Some m ->
  keywordString c =~ mention_pattern m = true ->
  none_earlier c i = true ->
  exists r,
    direct_mention c = Some r
    /\ name r = rock m
    /\ confidence r = fixed_confidence m.
Proof.
  intros Hn Hm Hearlier. unfold none_earlier in Hearlier.
  do 9 (destruct i as [|i];
        [ injection Hn as <-;
          unfold mention_pattern in Hm;
          unfold direct_mentions in Hearlier;
          simpl firstn in Hearlier; simpl forallb in Hearlier;
          unfold direct_mention; cbv zeta;
          earlier_false Hearlier;
          rewrite Hm;
          eexists; split; [reflexivity | split; reflexivity]
        | ]).
  simpl in Hn. destruct i; discriminate Hn.
Qed.

Lemma direct_mention_silent (c : Characteristics) :
  direct_mention c = None <-> none_earlier c 9 = true.
Proof.
  unfold direct_mention, none_earlier, direct_mentions. cbv zeta.
  simpl firstn. simpl forallb. unfold mention_pattern.
  destruct (keywordString c =~ "granite");
    [split; intros H; discriminate H |].
  destruct (keywordString c =~ "basalt");
    [split; intros H; discriminate H |].
  destruct (keywordString c =~ "limestone" <|> "lime");
    [split; intros H; discriminate H |].
  destruct (keywordString c =~ "sandstone" <|> "sand");
    [split; intros H; discriminate H |].
  destruct (keywordString c =~ "marble");
    [split; intros H; discriminate H |].
  destruct (keywordString c =~ "slate");
    [split; intros H; discriminate H |].
  destruct (keywordString c =~ "quartzite" <|> "quartz");
    [split; intros H; discriminate H |].
  destruct (keywordString c =~ "obsidian");
    [split; intros H; discriminate H |].
  destruct (keywordString c =~ "pumice");
    [split; intros H; discriminate H |].
  split; reflexivity.
Qed.

Lemma mention_patterns_are_words (m : mention) :
  In m direct_mentions -> word_pattern (mention_pattern m) = true.
Proof.
  assert (E : forallb (fun m => word_pattern (mention_pattern m))
                direct_mentions = true) by reflexivity.
  rewrite forallb_forall in E. exact (E m).
Qed.

Lemma forallb_firstn_ext {A : Type} (f g : A -> bool) (l : list A) :
  (forall x, In x l -> f x = g x) ->
  forall i, forallb f (firstn i l) = forallb g (firstn i l).
Proof.
  induction l as [|x l IH]; intros Hfg i.
  - destruct i; reflexivity.
  - destruct i as [|i]; [reflexivity |].
    simpl. rewrite (Hfg x (or_introl eq_refl)).
    rewrite IH; [reflexivity |].
    intros y Hy. apply Hfg. right. exact Hy.
Qed.

Lemma none_earlier_on_text (description : string)
    (img : option ImageAnalysis) (i : nat) :
  none_earlier (parseCharacteristics (Some description) img) i
  = none_earlier_in (toLowerCase description) i.
Proof.
  unfold none_earlier, none_earlier_in.
  apply forallb_firstn_ext. intros m Hm.
  rewrite (parse_keywordString description img _
             (mention_patterns_are_words m Hm)).
  reflexivity.
Qed.

(** The direct-mention tier on the text.  If the pattern of a
    direct-mention branch occurs anywhere in the lowercased description,
    inside a longer word as well, and no pattern of an earlier branch
    does, the identification is that branch's rock at its fixed
    confidence. *)
Theorem substring_short_circuit
    (description : string) (img : option ImageAnalysis)
    (i : nat) (m : mention) :
  nth_error direct_mentions i = Some m ->
  toLowerCase description =~ mention_pattern m = true ->
  none_earlier_in (toLowerCase description) i = true ->
  name (identifyRock (Some description) img) = rock m
  /\ confidence (identifyRock (Some description) img) = fixed_confidence m.
Proof.
  intros Hn Hm Hearlier.
  assert (Hin : In m direct_mentions) by exact (nth_error_In _ _ Hn).
  rewrite <- (parse_keywordString description img _
                (mention_patterns_are_words m Hin)) in Hm.
  rewrite <- (none_earlier_on_text description img i) in Hearlier.
  destruct (direct_mention_first_match _ i m Hn Hm Hearlier)
    as (r & Hr & Hname & Hconf).
  unfold identifyRock. cbv zeta. rewrite (classifyRock_direct _ r Hr).
  split; assumption.
Qed.

Lemma substring_short_circuit_witness :
  name (identifyRock (Some "Found among a THOUSAND shiny black pebbles") None)
  = "Sandstone"
  /\ confidence
       (identifyRock (Some "Found among a THOUSAND shiny black pebbles") None)
     = 80%Z.
Proof.
  apply (substring_short_circuit
           "Found among a THOUSAND shiny black pebbles" None 3
           {| mention_pattern := "sandstone" <|> "sand"; rock := "Sandstone";
              fixed_confidence := 80 |});
    vm_compute; reflexivity.
Defined.

(** No direct-mention branch returns exactly when none of the nine
    patterns occurs in the lowercased description. *)
Theorem direct_mention_silent_on_text
    (description : string) (img : option ImageAnalysis) :
  direct_mention (parseCharacteristics (Some description) img) = None
  <-> none_earlier_in (toLowerCase description) 9 = true.
Proof.
  rewrite <- (none_earlier_on_text description img 9).
  apply direct_mention_silent.
Qed.

Lemma strip_prefix (p q s : string) :
  strip (p ++ q) s <> None -> strip p s <> None.
Proof.
  revert s. induction p as [|a p IH]; simpl; intros s H.
  - discriminate.
  - destruct s as [|b s]; [exact H |].
    destruct (Ascii.eqb a b); [exact (IH s H) | exact H].
Qed.

Lemma search_prefix (p q s : string) :
  search (Lit (p ++ q)) s = true -> search (Lit p) s = true.
Proof.
  assert (Hat : forall t,
             match_at (Lit (p ++ q)) t (fun _ => true) = true ->
             match_at (Lit p) t (fun _ => true) = true).
  { intros t. simpl. intros H.
    assert (Hs := strip_prefix p q t).
    destruct (strip (p ++ q) t); [| discriminate H].
    destruct (strip p t); [reflexivity |].
    exfalso. apply Hs; [discriminate | reflexivity]. }
  induction s as [|c s IH].
  - rewrite !search_nil. apply Hat.
  - rewrite !search_cons. intros H.
    apply orb_true_iff in H. apply orb_true_iff.
    destruct H as [H | H]; [left; exact (Hat _ H) | right; exact (IH H)].
Qed.

Lemma Alt_subsumed (p q s : string) :
  s =~ (Lit (p ++ q) <|> Lit p) = s =~ Lit p.
Proof.
  unfold matches. rewrite search_Alt.
  destruct (search (Lit (p ++ q)) s) eqn:E; [| reflexivity].
  rewrite (search_prefix p q s E). reflexivity.
Qed.

(** In the three direct-mention patterns with a synonym the full name
    adds nothing: they match exactly the texts that contain "lime", "sand"
    and "quartz". *)
Theorem synonyms_subsume_names (s : string) :
  matches s ("limestone" <|> "lime") = matches s "lime"
  /\ matches s ("sandstone" <|> "sand") = matches s "sand"
  /\ matches s ("quartzite" <|> "quartz") = matches s "quartz".
Proof.
  split; [exact (Alt_subsumed "lime" "stone" s) |].
  split; [exact (Alt_subsumed "sand" "stone" s) |].
  exact (Alt_subsumed "quartz" "ite" s).
Qed.

(** Once no direct mention has returned, the joined keywords do not
    contain "sand", so in the later test [sand|grain] only "grain" can
    still match. *)
Theorem sand_is_dead_after_direct_mentions (c : Characteristics) :
  direct_mention c = None ->
  keywordString c =~ "sand" = false
  /\ keywordString c =~ "sand" <|> "grain" = keywordString c =~ "grain".
Proof.
  intros H. apply direct_mention_silent in H.
  unfold none_earlier, direct_mentions in H.
  simpl firstn in H. simpl forallb in H. unfold mention_pattern in H.
  assert (Hsand : keywordString c =~ "sand" = false).
  { rewrite <- (Alt_subsumed "sand" "stone" (keywordString c)).
    change ("sand" ++ "stone") with "sandstone".
    repeat (apply andb_prop in H; destruct H as [? H]).
    apply negb_true_iff. assumption. }
  split; [exact Hsand |].
  unfold matches in *. rewrite search_Alt, Hsand. reflexivity.
Qed.

Lemma sand_is_dead_after_direct_mentions_witness :
  keywordString (parseCharacteristics (Some "a grainy brown rock") None)
    =~ "sand" = false
  /\ keywordString (parseCharacteristics (Some "a grainy brown rock") None)
       =~ "sand" <|> "grain"
     = keywordString (parseCharacteristics (Some "a grainy brown rock") None)
         =~ "grain".
Proof.
  apply (sand_is_dead_after_direct_mentions
           (parseCharacteristics (Some "a grainy brown rock") None)).
  reflexivity.
Defined.

(** The confidence of an answer lies between 55 and 90, and 55 marks the
    inconclusive answer and nothing else: the classifier returns
    confidence 55 exactly when no branch of the first three tiers
    returned, and then its answer is the final fallback with its own
    formation text. *)
Theorem confidence_55_is_the_final_fallback (c : Characteristics) :
  (55 <= confidence (classifyRock c) <= 90)%Z
  /\ (confidence (classifyRock c) = 55%Z <-> classifyRock c = final_fallback)
  /\ (classifyRock c = final_fallback
      <-> direct_mention c = None /\ characteristic_based c = None
          /\ broad_fallback c = None).
Proof.
  split; [by_branch c; simpl; lia |].
  assert (H : direct_mention c = None /\ characteristic_based c = None
              /\ broad_fallback c = None
              \/ confidence (classifyRock c) <> 55%Z).
  { unfold classifyRock.
    destruct (direct_mention c) as [r|] eqn:H1; simpl or_continue.
    - right. apply direct_mention_range in H1. lia.
    - destruct (characteristic_based c) as [r|] eqn:H2; simpl or_continue.
      + right. apply characteristic_based_range in H2. lia.
      + destruct (broad_fallback c) as [r|] eqn:H3; simpl or_continue.
        * right. unfold broad_fallback in H3. returned H3; discriminate.
        * left. repeat split. }
  assert (Hfb : direct_mention c = None /\ characteristic_based c = None
                /\ broad_fallback c = None ->
                classifyRock c = final_fallback).
  { intros (H1 & H2 & H3). unfold classifyRock.
    rewrite H1, H2, H3. reflexivity. }
  split; split.
  - intros E. destruct H as [H | H]; [exact (Hfb H) | contradiction].
  - intros E. rewrite E. reflexivity.
  - intros E. destruct H as [H | H]; [exact H |].
    exfalso. apply H. rewrite E. reflexivity.
  - exact Hfb.
Qed.

(** Every rock of the catalog is the answer to some description: with
    the membership proved for all inputs, the catalog is exactly the set
    of names the identification can return. *)
Theorem catalog_is_reached (rockName : string) :
  In rockName catalog ->
  exists description : string,
    name (identifyRock (Some description) None) = rockName.
Proof.
  intros H. unfold catalog in H.
  repeat (destruct H as [<- | H]).
  - exists "granite". reflexivity.
  - exists "basalt". reflexivity.
  - exists "limestone". reflexivity.
  - exists "sandstone". reflexivity.
  - exists "marble". reflexivity.
  - exists "slate". reflexivity.
  - exists "quartzite". reflexivity.
  - exists "obsidian". reflexivity.
  - exists "pumice". reflexivity.
  - exists "dark rock full of holes". reflexivity.
  - exists "coarse dark rock". reflexivity.
  - exists "soft layered rock". reflexivity.
  - exists "flaky rock". reflexivity.
  - destruct H.
Qed.

Lemma catalog_is_reached_witness :
  exists description : string,
    name (identifyRock (Some description) None) = "Gabbro".
Proof.
  apply (catalog_is_reached "Gabbro"). unfold catalog. in_list.
Defined.

(* ================================================================== *)
(** ** Further properties of the enrichment *)









Lemma classifier_name_type (c : Characteristics) :
  In (name (classifyRock c), type (classifyRock c)) rock_types.
Proof. by_branch c; unfold rock_types; in_list. Qed.

Ltac settle_iff :=
  split;
  [ let H := fresh "H" in
    intros H;
    first [ solve [in_list] | discriminate H
          | (intros H'; simpl in H'; intuition discriminate) ]
  | let H := fresh "H" in
    intros H;
    first [ reflexivity
          | (exfalso; simpl in H; intuition discriminate)
          | (exfalso; apply H; solve [in_list]) ] ].

(** The classifier's answers against the reference tables.  The location
    table knows every type the classifier returns, so the "Worldwide
    distribution" fallback is never what a classified rock would get.  The
    other tables do not know every rock: composition and uses are the
    generic fallback exactly for Marble, Slate and Gabbro, the
    classification is the generic one exactly for Marble, Slate, Obsidian,
    Pumice, Scoria and Gabbro, and only Granite, Basalt and Limestone
    have fun facts of their own. *)
Theorem tables_cover_the_classifier (c : Characteristics) :
  let r := classifyRock c in
  (length (getDefaultLocations (type r)) = 4
   /\ getDefaultLocations (type r) <> [ "Worldwide distribution" ])
  /\ (getComposition (name r) = [ "Mineral composition varies" ]
      <-> In (name r) [ "Marble"; "Slate"; "Gabbro" ])
  /\ (getUses (name r)
      = [ "Various industrial and construction applications" ]
      <-> In (name r) [ "Marble"; "Slate"; "Gabbro" ])
  /\ (lookup classificationMap (name r) = None
      <-> In (name r)
            [ "Marble"; "Slate"; "Obsidian"; "Pumice"; "Scoria"; "Gabbro" ])
  /\ (lookup funFactsMap (name r) = None
      <-> ~ In (name r) [ "Granite"; "Basalt"; "Limestone" ]).
Proof.
  cbv zeta. assert (H := classifier_name_type c).
  generalize dependent (type (classifyRock c)).
  generalize dependent (name (classifyRock c)).
  intros n t H. unfold rock_types in H.
  repeat (destruct H as [H | H];
          [ injection H as <- <-;
            split; [split; [reflexivity | discriminate] |];
            split; [settle_iff |];
            split; [settle_iff |];
            split; [settle_iff |];
            settle_iff
          | ]).
  destruct H.
Qed.

(* ================================================================== *)
(** ** The request handler's answers *)

Lemma identifyRock_of_request_cases (request : RockIdentificationRequest) :
  (unparsable (req_description request) = true
   /\ identifyRock_of_request request = Threw)
  \/ (unparsable (req_description request) = false
      /\ exists description,
           identifyRock_of_request request
           = Done (identifyRock description (req_imageAnalysis request))).
Proof.
  unfold identifyRock_of_request.
  destruct (req_description request) as [| | [] | [] | s |]; simpl;
    first [ left; split; reflexivity
          | right; split; [reflexivity | eexists; reflexivity] ].
Qed.

(** The handler answers every request with status 200 or 500.  It
    answers 500 exactly when the method is not OPTIONS and either the body
    cannot be read or its description is a truthy value that is no string
    (true, a non-zero number, an array or an object); a failed Wikipedia
    fetch never gives a 500.  An OPTIONS request is answered "ok" without
    the body or the network being looked at, and a 200 to any other
    request carries an enriched rock. *)
Theorem handler_status
    (corsHeaders : list (string * string)) (req : Request)
    (net : attempt Response) :
  let response := handler corsHeaders req net in
  (status response = 200%Z \/ status response = 500%Z)
  /\ (status response = 500%Z
      <-> (method req === "OPTIONS") = false
          /\ match req_json req with
             | Threw => True
             | Done request => unparsable (req_description request) = true
             end)
  /\ ((method req === "OPTIONS") = true ->
      response
      = {| status := 200; headers := corsHeaders; body := body_ok |})
  /\ ((method req === "OPTIONS") = false ->
      status response = 200%Z ->
      exists enhancedData, body response = body_rock enhancedData)
  /\ (status response = 500%Z ->
      body response = body_error "Failed to identify rock").
Proof.
  cbv zeta. unfold handler.
  destruct (method req === "OPTIONS") eqn:Em.
  - simpl. repeat split; try (intros; discriminate); try tauto.
    intros [H _]. discriminate H.
  - destruct (req_json req) as [request|]; simpl.
    + destruct (identifyRock_of_request_cases request)
        as [[Hu ->] | [Hu [description ->]]]; simpl; rewrite Hu.
      * repeat split; try (intros; discriminate); try tauto.
      * repeat split; try (intros; discriminate); try tauto.
        -- intros [_ H]. discriminate H.
        -- intros _ _. eexists. reflexivity.
    + repeat split; try (intros; discriminate); try tauto.
Qed.

Lemma lookup_set_property_same (key value : string)
    (o : list (string * string)) :
  lookup (set_property key value o) key = Some value.
Proof.
  unfold lookup. induction o as [|[k v] o IH]; simpl.
  - rewrite String.eqb_refl. reflexivity.
  - destruct (k === key) eqn:E; simpl; rewrite E; [reflexivity | exact IH].
Qed.

Lemma lookup_set_property_other (key value other : string)
    (o : list (string * string)) :
  other <> key ->
  lookup (set_property key value o) other = lookup o other.
Proof.
  intros Hne. unfold lookup. induction o as [|[k v] o IH]; simpl.
  - apply String.eqb_neq in Hne. rewrite String.eqb_sym, Hne. reflexivity.
  - destruct (k === key) eqn:E; simpl.
    + apply String.eqb_eq in E. subst k.
      apply String.eqb_neq in Hne. rewrite String.eqb_sym, Hne.
      reflexivity.
    + destruct (k === other); [reflexivity | exact IH].
Qed.

Lemma handler_headers_of (corsHeaders : list (string * string))
    (req : Request) (net : attempt Response) :
  (method req === "OPTIONS") = false ->
  headers (handler corsHeaders req net)
  = set_property "Content-Type" "application/json" corsHeaders.
Proof.
  intros Em. unfold handler. rewrite Em.
  destruct (req_json req) as [request|]; simpl; [| reflexivity].
  destruct (identifyRock_of_request request); reflexivity.
Qed.

(** Every answer to a request other than OPTIONS, the 500 as well,
    declares the content type application/json and otherwise carries each
    CORS header with the value it was given. *)
Theorem handler_headers
    (corsHeaders : list (string * string)) (req : Request)
    (net : attempt Response) :
  (method req === "OPTIONS") = false ->
  lookup (headers (handler corsHeaders req net)) "Content-Type"
  = Some "application/json"
  /\ forall key,
       key <> "Content-Type" ->
       lookup (headers (handler corsHeaders req net)) key
       = lookup corsHeaders key.
Proof.
  intros Em. rewrite (handler_headers_of corsHeaders req net Em).
  split.
  - apply lookup_set_property_same.
  - intros key Hne. apply lookup_set_property_other. exact Hne.
Qed.

Lemma handler_headers_witness :
  let response :=
    handler [ ("Access-Control-Allow-Origin", "*") ]
      {| method := "POST"; req_json := Threw |} Threw in
  lookup (headers response) "Content-Type" = Some "application/json"
  /\ forall key,
       key <> "Content-Type" ->
       lookup (headers response) key
       = lookup [ ("Access-Control-Allow-Origin", "*") ] key.
Proof.
  apply (handler_headers [ ("Access-Control-Allow-Origin", "*") ]
           {| method := "POST"; req_json := Threw |} Threw).
  reflexivity.
Defined.

(* ================================================================== *)
(** ** The page and the function together *)

Lemma trim_start_blank (s : string) : blank s = true -> trim_start s = "".
Proof.
  unfold blank. induction s as [|c s IH]; simpl; intros H.
  - reflexivity.
  - destruct (is_space c); simpl in H; [exact (IH H) | discriminate H].
Qed.

Lemma trim_blank (s : string) : blank s = true -> trim s = "".
Proof. intros H. unfold trim. rewrite (trim_start_blank s H). reflexivity. Qed.

Lemma identifyRock_empty (img : option ImageAnalysis) :
  identifyRock (Some "") img = final_fallback.
Proof. destruct img; reflexivity. Qed.

(** A submission whose description is empty or all white space, with or
    without a photo, is answered 200 with the final fallback: Granite,
    igneous, confidence 55.  In particular a photo alone always
    identifies as Granite. *)
Theorem blank_description_is_final_fallback
    (corsHeaders : list (string * string)) (httpMethod : string)
    (image : option string) (description : string)
    (net : attempt Response) :
  (httpMethod === "OPTIONS") = false ->
  blank description = true ->
  let response :=
    handler corsHeaders
      {| method := httpMethod;
         req_json := Done (requestData image description) |} net in
  status response = 200%Z
  /\ body response = body_rock (enhanceRockData final_fallback net).
Proof.
  intros Hm Hb. cbv zeta.
  assert (E : identifyRock_of_request (requestData image description)
              = Done final_fallback).
  { unfold identifyRock_of_request, requestData.
    cbn [req_description req_imageAnalysis].
    rewrite (trim_blank description Hb), identifyRock_empty. reflexivity. }
  unfold handler. cbn [method req_json]. rewrite Hm.
  cbn [bind]. rewrite E. split; reflexivity.
Qed.

Lemma blank_description_is_final_fallback_witness :
  let response :=
    handler [] {| method := "POST";
                  req_json := Done (requestData (Some "blob:photo") "  ") |}
      Threw in
  status response = 200%Z
  /\ body response = body_rock (enhanceRockData final_fallback Threw).
Proof.
  apply (blank_description_is_final_fallback [] "POST" (Some "blob:photo")
           "  " Threw); reflexivity.
Defined.

Lemma is_space_lower_char (c : ascii) : is_space (lower_char c) = is_space c.
Proof. destruct c as [[] [] [] [] [] [] [] []]; reflexivity. Qed.

Lemma ends_with_space_cons (c : ascii) (s : string) :
  s <> "" -> ends_with_space (String c s) = ends_with_space s.
Proof. destruct s; [intros H; destruct (H eq_refl) | reflexivity]. Qed.

Lemma ends_with_space_toLowerCase (s : string) :
  ends_with_space (toLowerCase s) = ends_with_space s.
Proof.
  induction s as [|c s IH]; [reflexivity |].
  destruct s as [|d s].
  - simpl. apply is_space_lower_char.
  - change (toLowerCase (String c (String d s)))
      with (String (lower_char c) (toLowerCase (String d s))).
    rewrite ends_with_space_cons by (simpl; discriminate).
    rewrite ends_with_space_cons by discriminate.
    exact IH.
Qed.

Lemma trim_start_head (s : string) :
  trim_start s = ""
  \/ exists c rest, trim_start s = String c rest /\ is_space c = false.
Proof.
  induction s as [|c s IH]; simpl.
  - left. reflexivity.
  - destruct (is_space c) eqn:Ec; [exact IH |].
    right. exists c, s. split; [reflexivity | exact Ec].
Qed.

Lemma trim_end_head (c : ascii) (s : string) :
  is_space c = false -> exists rest, trim_end (String c s) = String c rest.
Proof.
  intros Hc. simpl. destruct (trim_end s) as [|d r].
  - rewrite Hc. exists "". reflexivity.
  - exists (String d r). reflexivity.
Qed.

Lemma trim_end_no_trailing (s : string) : ends_with_space (trim_end s) = false.
Proof.
  induction s as [|c s IH]; simpl.
  - reflexivity.
  - destruct (trim_end s) as [|d r].
    + destruct (is_space c) eqn:Ec; simpl; [reflexivity | exact Ec].
    + rewrite ends_with_space_cons by discriminate. exact IH.
Qed.

(** Text that does not end with white space splits into non-empty
    pieces, once the piece being read is non-empty or a separator has just
    been passed. *)
Lemma split_from_pieces (s : string) :
  ends_with_space s = false ->
  (forall tok, tok <> "" ->
     Forall (fun w => w <> "") (split_from s tok false))
  /\ (s <> "" -> Forall (fun w => w <> "") (split_from s "" true)).
Proof.
  induction s as [|c s IH]; intros He.
  - split.
    + intros tok Htok. constructor; [exact Htok | constructor].
    + intros H. destruct (H eq_refl).
  - assert (Hrest : is_space c = true -> s <> "").
    { intros Hc ->. simpl in He. congruence. }
    assert (He' : ends_with_space s = false).
    { destruct s as [|d s]; [reflexivity |].
      rewrite ends_with_space_cons in He by discriminate. exact He. }
    destruct (IH He') as [IHf IHt].
    split.
    + intros tok Htok. simpl. destruct (is_space c) eqn:Ec.
      * constructor; [exact Htok | exact (IHt (Hrest eq_refl))].
      * apply IHf. destruct tok; discriminate.
    + intros _. simpl. destruct (is_space c) eqn:Ec.
      * exact (IHt (Hrest eq_refl)).
      * apply IHf. discriminate.
Qed.

(** The page trims the description before sending it, so the function
    never sees an empty keyword from the page: every keyword of a trimmed
    description is a non-empty word. *)
Theorem trimmed_description_has_no_empty_keyword
    (image : option string) (description : string) :
  Forall (fun w => w <> "")
    (keywords
       (parseCharacteristics (Some (trim description))
          (req_imageAnalysis (requestData image description)))).
Proof.
  unfold trim.
  destruct (trim_start_head description) as [-> | (c & rest & -> & Hc)].
  - simpl trim_end. destruct image; constructor.
  - assert (He := trim_end_no_trailing (String c rest)).
    destruct (trim_end_head c rest Hc) as [r Er]. rewrite Er in *.
    rewrite parse_keywords. unfold split_whitespace.
    change (toLowerCase (String c r))
      with (String (lower_char c) (toLowerCase r)).
    simpl split_from. rewrite is_space_lower_char, Hc.
    apply (proj1 (split_from_pieces (toLowerCase r)
                    ltac:(rewrite ends_with_space_toLowerCase;
                          destruct r as [|d r];
                            [reflexivity
                            | rewrite ends_with_space_cons in He
                                by discriminate; exact He]))).
    discriminate.
Qed.

Lemma classifyRock_confidence (c : Characteristics) :
  (55 <= confidence (classifyRock c) <= 90)%Z.
Proof. by_branch c; simpl; lia. Qed.

(** When what the page receives is an answer of the function (a
    classified rock, enriched), the page shows a confidence of 50 exactly
    when it fell back, that is when the call of identify-rock failed or
    the call of geological-data threw: no answer of the classifier is
    shown with confidence 50, and an error that geological-data merely
    returns does not make the page fall back. *)
Theorem page_confidence_50_is_the_fallback
    (image : option string) (identified : attempt EnrichedRock)
    (geological : attempt (option string)) :
  (forall data, identified = Done data ->
     exists c net, data = enhanceRockData (classifyRock c) net) ->
  (shown_confidence (page_identifyRock image identified geological) = 50%Z
   <-> identified = Threw \/ geological = Threw)
  /\ (identified = Threw \/ geological = Threw ->
      page_identifyRock image identified geological = page_fallback).
Proof.
  intros Hdata.
  destruct identified as [data|].
  - destruct geological as [g|].
    + destruct (Hdata data eq_refl) as (c & net & ->).
      assert (Hc := classifyRock_confidence c).
      split.
      * split.
        -- intros H.
           change (confidence (classifyRock c) = 50%Z) in H. lia.
        -- intros [H | H]; discriminate H.
      * intros [H | H]; discriminate H.
    + split; [split |]; intros; first [reflexivity | right; reflexivity].
  - split; [split |]; intros; first [reflexivity | left; reflexivity].
Qed.

Lemma page_confidence_50_is_the_fallback_witness :
  (shown_confidence
     (page_identifyRock None
        (Done (enhanceRockData (classifyRock initial_characteristics) Threw))
        (Done None)) = 50%Z
   <-> Done (enhanceRockData (classifyRock initial_characteristics) Threw)
       = Threw
       \/ Done (@None string) = Threw)
  /\ (Done (enhanceRockData (classifyRock initial_characteristics) Threw)
      = Threw
      \/ Done (@None string) = Threw ->
      page_identifyRock None
        (Done (enhanceRockData (classifyRock initial_characteristics) Threw))
        (Done None)
      = page_fallback).
Proof.
  apply (page_confidence_50_is_the_fallback None
           (Done (enhanceRockData (classifyRock initial_characteristics) Threw))
           (Done None)).
  intros data H. injection H as <-.
  exists initial_characteristics, Threw. reflexivity.
Defined.

(** The Wikipedia thumbnail the function attaches never reaches the
    page: of the fetch only the fun facts show.  Two outcomes of the fetch
    that give the same fun facts give the same page, whatever their
    thumbnails; the image shown is the uploaded photo, or else the image
    of geological-data. *)
Theorem page_ignores_the_thumbnail
    (image : option string) (basicData : RockData)
    (net net' : attempt Response) (scientific_image : option string) :
  funFacts (enhanceRockData basicData net)
  = funFacts (enhanceRockData basicData net') ->
  page_identifyRock image (Done (enhanceRockData basicData net))
    (Done scientific_image)
  = page_identifyRock image (Done (enhanceRockData basicData net'))
      (Done scientific_image)
  /\ shown_image
       (page_identifyRock image (Done (enhanceRockData basicData net))
          (Done scientific_image))
     = match image with
       | Some url => Some url
       | None => scientific_image
       end.
Proof.
  intros H. split; [| reflexivity].
  unfold page_identifyRock. cbn [bind try_catch].
  rewrite H. reflexivity.
Qed.

Lemma page_ignores_the_thumbnail_witness :
  let with_thumbnail :=
    Done {| ok := true;
            json := Done {| extract := Some "Slate is a fine-grained rock.";
                            thumbnail_source := Some "https://upload.example/slate.jpg" |} |} in
  let without :=
    Done {| ok := true;
            json := Done {| extract := Some "Slate is a fine-grained rock.";
                            thumbnail_source := None |} |} in
  page_identifyRock None
    (Done (enhanceRockData (identifyRock (Some "slate") None) with_thumbnail))
    (Done None)
  = page_identifyRock None
      (Done (enhanceRockData (identifyRock (Some "slate") None) without))
      (Done None)
  /\ shown_image
       (page_identifyRock None
          (Done (enhanceRockData (identifyRock (Some "slate") None)
                   with_thumbnail))
          (Done None))
     = None.
Proof.
  cbv zeta.
  apply (page_ignores_the_thumbnail None (identifyRock (Some "slate") None)).
  reflexivity.
Defined.
